(** * jira-spillover.py: fetch loops, spillover classifier and summary

    A shallow embedding of [src/jira-spillover.py].  The script reads JSON
    from a REST service, classifies every issue of every closed sprint with
    a "spillover reason" and groups the spilled issues per assignee and
    reason.

    Python values are the values [response.json()] produces; exceptions are
    explicit ([result]); the two [while True] loops take fuel and answer
    [None] when it runs out; the REST service is a function of the request
    and of the requests made before it.  pandas is an external library: its
    string parser and its treatment of non-string arguments are fields of
    the class [Pandas], and what it does with a group of rows beyond
    sorting and counting is a field of the class [Frames].  The general
    statements hold for every instance; the module [Iso] gives one to
    compute with.  An instance of [Pandas] is pandas at the moment of one
    run: strings such as "now" are read off the clock, so two runs are
    compared under two instances. *)

From Stdlib Require Import ZArith List String Ascii Bool Lia PeanoNat.
From Stdlib Require Import Sorted Permutation OrderedTypeEx.
Import ListNotations.
Open Scope string_scope.
Open Scope list_scope.
Set Warnings "-register-all".

(** ** Python values *)

Module Py.

(** A Python float: what the JSON decoder yields for a literal with a
    fraction or an exponent, and for [NaN], [Infinity], [-Infinity].  A
    finite double is [m * 2^e] for integers [m] and [e]. *)
Inductive pyfloat : Type :=
| FNaN
| FInf (negative : bool)
| FFinite (m e : Z).

(** The values of [response.json()].  A dict is the list of its items in
    insertion order; a lookup takes the first item with the key. *)
Inductive json : Type :=
| JNull
| JBool (b : bool)
| JInt (z : Z)
| JFloat (f : pyfloat)
| JStr (s : string)
| JArr (l : list json)
| JObj (d : list (string * json)).

Inductive exn : Type :=
| KeyError
| AttributeError
| TypeError
| ValueError
| RequestException.

Inductive result (A : Type) : Type :=
| Ok (a : A)
| Raise (e : exn).

Arguments Ok {A} a.
Arguments Raise {A} e.

Definition bind {A B : Type} (r : result A) (k : A -> result B) : result B :=
  match r with
  | Ok a => k a
  | Raise e => Raise e
  end.

Definition raises {A : Type} (r : result A) : Prop :=
  exists e, r = Raise e.

Fixpoint dict_lookup (d : list (string * json)) (k : string) : option json :=
  match d with
  | [] => None
  | (k', v) :: d' => if String.eqb k' k then Some v else dict_lookup d' k
  end.

(** [v.get(k, default)]: only a dict has [get]. *)
Definition py_get (v : json) (k : string) (default : json) : result json :=
  match v with
  | JObj d =>
      match dict_lookup d k with
      | Some x => Ok x
      | None => Ok default
      end
  | _ => Raise AttributeError
  end.

(** [v[k]] for a string [k]. *)
Definition py_getitem (v : json) (k : string) : result json :=
  match v with
  | JObj d =>
      match dict_lookup d k with
      | Some x => Ok x
      | None => Raise KeyError
      end
  | _ => Raise TypeError
  end.

Definition float_nonzero (f : pyfloat) : bool :=
  match f with
  | FFinite m _ => negb (m =? 0)%Z
  | _ => true
  end.

(** Truth value of a Python object, as [if], [not], [and] and [or] test it. *)
Definition truthy (v : json) : bool :=
  match v with
  | JNull => false
  | JBool b => b
  | JInt z => negb (z =? 0)%Z
  | JFloat f => float_nonzero f
  | JStr s => negb (String.eqb s "")
  | JArr l => match l with [] => false | _ => true end
  | JObj d => match d with [] => false | _ => true end
  end.

(** [m * 2^e >= 8], exactly. *)
Definition float_ge8 (f : pyfloat) : bool :=
  match f with
  | FNaN => false
  | FInf negative => negb negative
  | FFinite m e =>
      if (0 <=? e)%Z then (8 <=? m * 2 ^ e)%Z else (8 * 2 ^ (- e) <=? m)%Z
  end.

(** [v >= 8]: numbers compare by value ([True] is 1), anything else with
    an [int] is a [TypeError]. *)
Definition py_ge8 (v : json) : result bool :=
  match v with
  | JInt z => Ok (8 <=? z)%Z
  | JFloat f => Ok (float_ge8 f)
  | JBool _ => Ok false
  | _ => Raise TypeError
  end.

Definition lower_ascii (c : ascii) : ascii :=
  let n := nat_of_ascii c in
  if andb (65 <=? n)%nat (n <=? 90)%nat then ascii_of_nat (n + 32) else c.

Fixpoint lower (s : string) : string :=
  match s with
  | EmptyString => EmptyString
  | String c s' => String (lower_ascii c) (lower s')
  end.

(** [v.lower()] on the UTF-8 text of a string.  Only the letters A-Z are
    folded here; no other character lowercases to one of d, o, n, e, so
    the comparison with ["done"] is decided as Python decides it. *)
Definition py_lower (v : json) : result string :=
  match v with
  | JStr s => Ok (lower s)
  | _ => Raise AttributeError
  end.

(** [v == s] for a string literal [s]. *)
Definition py_eq_str (v : json) (s : string) : bool :=
  match v with
  | JStr t => String.eqb t s
  | _ => false
  end.

Definition is_continuation (c : ascii) : bool :=
  let n := nat_of_ascii c in andb (128 <=? n)%nat (n <? 192)%nat.

(** The characters of a string, each as a string of its own: a lead byte
    takes the continuation bytes that follow it. *)
Fixpoint chars_aux (cur : string) (s : string) : list string :=
  match s with
  | EmptyString => [cur]
  | String c s' =>
      if is_continuation c then chars_aux (String.append cur (String c EmptyString)) s'
      else cur :: chars_aux (String c EmptyString) s'
  end.

Definition chars (s : string) : list string :=
  match s with
  | EmptyString => []
  | String c s' => chars_aux (String c EmptyString) s'
  end.

Fixpoint dict_keys (seen : list string) (d : list (string * json)) : list string :=
  match d with
  | [] => []
  | (k, _) :: d' =>
      if existsb (String.eqb k) seen then dict_keys seen d'
      else k :: dict_keys (k :: seen) d'
  end.

(** The elements [list.extend(v)] appends and [len(v)] counts: the items
    of a list, the characters of a string, the keys of a dict; other
    values are not iterable and have no length. *)
Definition py_iter (v : json) : result (list json) :=
  match v with
  | JArr l => Ok l
  | JStr s => Ok (map JStr (chars s))
  | JObj d => Ok (map JStr (dict_keys [] d))
  | _ => Raise TypeError
  end.

Definition py_len (v : json) : result nat :=
  bind (py_iter v) (fun l => Ok (List.length l)).

End Py.

Export Py.

Declare Scope py_scope.
Delimit Scope py_scope with py.
Notation "x <- c ;; k" := (bind c (fun x => k))
  (at level 61, c at next level, right associativity) : py_scope.
Open Scope py_scope.

(** ** The pandas boundary *)

Module Pd.

(** A [Timestamp]: an instant in nanoseconds and whether it carries a
    time zone. *)
Record timestamp : Type := mkTimestamp { instant : Z; tz_aware : bool }.

(** What [pd.to_datetime] hands back for a scalar argument.  [PdOther v]
    is the object pandas builds from a value [v] that is neither of the
    first three (an index built from a list, say). *)
Inductive pdval : Type :=
| PdNone
| NaT
| Timestamp (t : timestamp)
| PdOther (v : json).

(** The parts of pandas the script relies on and this development does
    not fix: which strings are timestamps, which strings read as missing
    in every mode, what becomes of an argument that is not a string, and
    how objects other than [Timestamp] and [NaT] compare. *)
Class Pandas : Type := {
  parse_datetime : string -> option timestamp;
  null_string : string -> bool;
  to_datetime_other : bool -> json -> result pdval;
  gt_other : pdval -> pdval -> result bool
}.

Section Boundary.
Context {P : Pandas}.

(** [pd.to_datetime(v, errors="coerce")] when [coerce], otherwise
    [pd.to_datetime(v)], whose default is [errors="raise"]. *)
Definition to_datetime (coerce : bool) (v : json) : result pdval :=
  match v with
  | JStr s =>
      match parse_datetime s with
      | Some t => Ok (Timestamp t)
      | None => if orb coerce (null_string s) then Ok NaT else Raise ValueError
      end
  | _ => to_datetime_other coerce v
  end.

(** [a > b] used as a condition.  Two timestamps compare by instant when
    both or neither carry a zone and raise otherwise; every comparison
    with [NaT] is false. *)
Definition pd_gt (a b : pdval) : result bool :=
  match a, b with
  | Timestamp x, Timestamp y =>
      if Bool.eqb (tz_aware x) (tz_aware y) then Ok (instant y <? instant x)%Z
      else Raise TypeError
  | NaT, Timestamp _ => Ok false
  | Timestamp _, NaT => Ok false
  | NaT, NaT => Ok false
  | _, _ => gt_other a b
  end.

End Boundary.

End Pd.

Export Pd.

Arguments truthy v : simpl never.
Arguments to_datetime {P} coerce v : simpl never.
Arguments pd_gt {P} a b : simpl never.

(** ** The classifier *)

Section Classifier.
Context {P : Pandas}.

(** The local variables set by the first six lines of
    [get_spillover_reason]. *)
Record locals : Type := mkLocals {
  status : json;
  created : pdval;
  updated : pdval;
  story_points : json;
  assignee : json
}.

Definition read_fields (issue : json) : result locals :=
  fields <- py_getitem issue "fields" ;;
  st <- py_get fields "status" (JObj []) ;;
  cat <- py_get st "statusCategory" (JObj []) ;;
  status <- py_get cat "name" (JStr "") ;;
  c <- py_get fields "created" JNull ;;
  created <- to_datetime true c ;;
  u <- py_get fields "updated" JNull ;;
  updated <- to_datetime true u ;;
  story_points <- py_get fields "customfield_10016" (JInt 0) ;;
  a <- py_get fields "assignee" (JObj []) ;;
  assignee <- py_get a "displayName" (JStr "Unassigned") ;;
  Ok (mkLocals status created updated story_points assignee).

(** [story_points and story_points >= 8] as a condition. *)
Definition big_estimate (story_points : json) : result bool :=
  if truthy story_points then py_ge8 story_points else Ok false.

(** The chain of tests, from [if status.lower() == "done"] on; the
    reason is [None] for Python's [None]. *)
Definition choose_reason (v : locals) (sprint_start sprint_end : json)
  : result (option string) :=
  low <- py_lower (status v) ;;
  if String.eqb low "done" then Ok None
  else
    s <- to_datetime false sprint_start ;;
    after_start <- pd_gt (created v) s ;;
    if (after_start : bool) then Ok (Some "Scope added mid-sprint")
    else
      big <- big_estimate (story_points v) ;;
      if (big : bool) then Ok (Some "Underestimated effort")
      else
        e <- to_datetime false sprint_end ;;
        after_end <- pd_gt (updated v) e ;;
        if (after_end : bool) then Ok (Some "Carried over work post-sprint")
        else if py_eq_str (assignee v) "Unassigned"
             then Ok (Some "No assignee during sprint")
             else Ok (Some "General delay / blocked").

(** [get_spillover_reason(issue, sprint_start, sprint_end)]. *)
Definition get_spillover_reason (issue sprint_start sprint_end : json)
  : result (option string) :=
  v <- read_fields issue ;;
  choose_reason v sprint_start sprint_end.

End Classifier.

(** ** The REST service and the two fetch loops *)

Module Fetch.

(** The two requests of the script, by what varies in their URL:
    [.../board/{board_id}/sprint?state=closed&startAt={start_at}] and
    [.../sprint/{sprint_id}/issue?startAt={start_at}&maxResults=100]. *)
Inductive request : Type :=
| SprintsPage (board_id : Z) (start_at : nat)
| IssuesPage (sprint_id : json) (start_at : nat).

(** [requests.get(...)] followed by [response.json()]: the payload, or the
    exception either call raises.  The answer may depend on the requests
    served so far. *)
Definition service : Type := list request -> request -> result json.

(** One turn of the loop body of [get_sprints] on the payload [data]: the
    list after [extend], and the next offset unless the loop breaks. *)
Definition sprints_page (data : json) (sprints : list json) (start_at : nat)
  : result (list json * option nat) :=
  vals <- py_get data "values" (JArr []) ;;
  items <- py_iter vals ;;
  last <- py_get data "isLast" (JBool true) ;;
  if truthy last then Ok (sprints ++ items, None)
  else
    vals' <- py_get data "values" (JArr []) ;;
    n <- py_len vals' ;;
    Ok (sprints ++ items, Some (start_at + n)).

(** One turn of the loop body of [get_issues_for_sprint]. *)
Definition issues_page (data : json) (issues : list json) (start_at : nat)
  : result (list json * option nat) :=
  vals <- py_get data "issues" (JArr []) ;;
  items <- py_iter vals ;;
  last <- py_get data "isLast" (JBool true) ;;
  stop <- (if truthy last then Ok true
           else
             vals' <- py_get data "issues" (JArr []) ;;
             n <- py_len vals' ;;
             Ok (n =? 0)%nat) ;;
  if (stop : bool) then Ok (issues ++ items, None)
  else
    vals'' <- py_get data "issues" (JArr []) ;;
    n <- py_len vals'' ;;
    Ok (issues ++ items, Some (start_at + n)).

(** [while True]: request the page at [start_at], run the body, go on
    from the next offset.  [None] when [fuel] turns do not reach a
    [break] or an exception.  The requests made are appended to [log]. *)
Fixpoint fetch_loop (body : json -> list json -> nat -> result (list json * option nat))
    (url : nat -> request) (fuel : nat) (srv : service)
    (log : list request) (acc : list json) (start_at : nat)
  : option (result (list json) * list request) :=
  match fuel with
  | O => None
  | S fuel' =>
      let log' := log ++ [url start_at] in
      match (data <- srv log (url start_at) ;; body data acc start_at) with
      | Raise e => Some (Raise e, log')
      | Ok (acc', None) => Some (Ok acc', log')
      | Ok (acc', Some next) => fetch_loop body url fuel' srv log' acc' next
      end
  end.

(** The loop of [get_sprints], from a turn on. *)
Definition get_sprints_loop (fuel : nat) (srv : service) (board_id : Z)
    (log : list request) (sprints : list json) (start_at : nat)
  : option (result (list json) * list request) :=
  fetch_loop sprints_page (SprintsPage board_id) fuel srv log sprints start_at.

Definition get_sprints (fuel : nat) (srv : service) (board_id : Z)
    (log : list request) : option (result (list json) * list request) :=
  get_sprints_loop fuel srv board_id log [] 0.

(** The loop of [get_issues_for_sprint], from a turn on. *)
Definition get_issues_loop (fuel : nat) (srv : service) (sprint_id : json)
    (log : list request) (issues : list json) (start_at : nat)
  : option (result (list json) * list request) :=
  fetch_loop issues_page (IssuesPage sprint_id) fuel srv log issues start_at.

Definition get_issues_for_sprint (fuel : nat) (srv : service) (sprint_id : json)
    (log : list request) : option (result (list json) * list request) :=
  get_issues_loop fuel srv sprint_id log [] 0.

(** What [extend] appends for a payload: the elements under [k], none
    when the key is missing. *)
Definition page_items (k : string) (data : json) : result (list json) :=
  vals <- py_get data k (JArr []) ;;
  py_iter vals.

(** The service delivers [pages] to a loop that starts at [start_at]:
    asked for the offset reached so far, it answers with a payload that
    holds the next page under [k] and its flag under ["isLast"]. *)
Fixpoint serves (srv : service) (url : nat -> request) (k : string)
    (log : list request) (start_at : nat) (pages : list (list json * bool)) : Prop :=
  match pages with
  | [] => True
  | (items, last) :: rest =>
      (exists d, srv log (url start_at) = Ok (JObj d) /\
                 dict_lookup d k = Some (JArr items) /\
                 dict_lookup d "isLast" = Some (JBool last)) /\
      serves srv url k (log ++ [url start_at]) (start_at + List.length items) rest
  end.

End Fetch.

Export Fetch.

(** ** Building the records *)

Definition BOARD_ID : Z := 1.

(** One element of [records]: the dict appended for an issue. *)
Record record : Type := mkRecord {
  Sprint : json;
  Assignee : json;
  Issue_Key : json;
  Summary : json;
  Status : json;
  Story_Points : json;
  Spillover_Reason : option string
}.

Section Records.
Context {P : Pandas}.

(** The body of [for issue in issues]. *)
Definition issue_record (sprint_name sprint_start sprint_end issue : json)
  : result record :=
  fields <- py_getitem issue "fields" ;;
  a <- py_get fields "assignee" (JObj []) ;;
  assignee <- py_get a "displayName" (JStr "Unassigned") ;;
  st <- py_get fields "status" (JObj []) ;;
  cat <- py_get st "statusCategory" (JObj []) ;;
  status <- py_get cat "name" (JStr "") ;;
  story_points <- py_get fields "customfield_10016" (JInt 0) ;;
  reason <- get_spillover_reason issue sprint_start sprint_end ;;
  key <- py_getitem issue "key" ;;
  summary <- py_get fields "summary" (JStr "") ;;
  Ok {| Sprint := sprint_name; Assignee := assignee; Issue_Key := key;
        Summary := summary; Status := status; Story_Points := story_points;
        Spillover_Reason := reason |}.

Fixpoint issue_records (sprint_name sprint_start sprint_end : json)
    (issues : list json) (records : list record) : result (list record) :=
  match issues with
  | [] => Ok records
  | issue :: rest =>
      r <- issue_record sprint_name sprint_start sprint_end issue ;;
      issue_records sprint_name sprint_start sprint_end rest (records ++ [r])
  end.

(** The head of the body of [for sprint in sprints], up to the test. *)
Definition sprint_header (sprint : json) : result (json * json * json * json) :=
  sprint_id <- py_getitem sprint "id" ;;
  sprint_name <- py_getitem sprint "name" ;;
  sprint_start <- py_get sprint "startDate" JNull ;;
  sprint_end <- py_get sprint "endDate" JNull ;;
  Ok (sprint_id, sprint_name, sprint_start, sprint_end).

(** [not sprint_start or not sprint_end]. *)
Definition skip_sprint (sprint_start sprint_end : json) : bool :=
  orb (negb (truthy sprint_start)) (negb (truthy sprint_end)).

(** [for sprint in sprints]: the records after the loop and the requests
    made, [None] when a fetch runs out of fuel. *)
Fixpoint sprint_records (fuel : nat) (srv : service) (sprints : list json)
    (log : list request) (records : list record)
  : option (result (list record) * list request) :=
  match sprints with
  | [] => Some (Ok records, log)
  | sprint :: rest =>
      match sprint_header sprint with
      | Raise e => Some (Raise e, log)
      | Ok (sprint_id, sprint_name, sprint_start, sprint_end) =>
          if skip_sprint sprint_start sprint_end
          then sprint_records fuel srv rest log records
          else
            match get_issues_for_sprint fuel srv sprint_id log with
            | None => None
            | Some (Raise e, log') => Some (Raise e, log')
            | Some (Ok issues, log') =>
                match issue_records sprint_name sprint_start sprint_end issues records with
                | Raise e => Some (Raise e, log')
                | Ok records' => sprint_records fuel srv rest log' records'
                end
            end
      end
  end.

(** [analyze_spillovers] up to [records]: the sprints of the board, then
    the loop over them, starting from [records = []]. *)
Definition collect_records (fuel : nat) (srv : service) (log : list request)
  : option (result (list record) * list request) :=
  match get_sprints fuel srv BOARD_ID log with
  | None => None
  | Some (Raise e, log') => Some (Raise e, log')
  | Some (Ok sprints, log') => sprint_records fuel srv sprints log' []
  end.

End Records.

(** ** The summary *)

(** One row of [summary]. *)
Record summary_row : Type := mkRow {
  row_Assignee : json;
  row_Reason : string;
  Spilled_Issues : nat;
  row_Story_Points : json
}.

(** What pandas does and this development does not fix: the sum of the
    story points of a group (given the whole column, which decides its
    type), and the grouping of a frame in which some assignee is neither
    a string nor missing. *)
Class Frames : Type := {
  agg_sum : list json -> list json -> result json;
  groupby_other : list record -> result (list summary_row)
}.

(** [notna] is false on [None] and on the float NaN. *)
Definition is_na (v : json) : bool :=
  match v with
  | JNull => true
  | JFloat FNaN => true
  | _ => false
  end.

Definition has_reason (r : record) : bool :=
  match Spillover_Reason r with
  | Some _ => true
  | None => false
  end.

(** [df[df["Spillover Reason"].notna()]]. *)
Definition df_spilled (records : list record) : list record :=
  filter has_reason records.

Definition string_or_na (v : json) : bool :=
  match v with
  | JStr _ => true
  | _ => is_na v
  end.

Definition key : Type := string * string.

(** Group keys sort by assignee, then by reason, as strings. *)
Definition key_compare (a b : key) : comparison :=
  match String.compare (fst a) (fst b) with
  | Eq => String.compare (snd a) (snd b)
  | c => c
  end.

(** The key of a row; a row whose assignee is missing has none and is
    dropped by [groupby]. *)
Definition group_key (r : record) : option key :=
  match Assignee r, Spillover_Reason r with
  | JStr a, Some reason => Some (a, reason)
  | _, _ => None
  end.

(** The groups, sorted by key, each with its rows in frame order. *)
Fixpoint bucket_insert (k : key) (r : record) (bs : list (key * list record))
  : list (key * list record) :=
  match bs with
  | [] => [(k, [r])]
  | (k', rs) :: bs' =>
      match key_compare k k' with
      | Lt => (k, [r]) :: bs
      | Eq => (k', rs ++ [r]) :: bs'
      | Gt => (k', rs) :: bucket_insert k r bs'
      end
  end.

Definition groupby_step (bs : list (key * list record)) (r : record)
  : list (key * list record) :=
  match group_key r with
  | Some k => bucket_insert k r bs
  | None => bs
  end.

Definition groupby (rows : list record) : list (key * list record) :=
  fold_left groupby_step rows [].

(** ["count"]: the rows of the group whose issue key is not missing. *)
Definition count_keys (rs : list record) : nat :=
  List.length (filter (fun r => negb (is_na (Issue_Key r))) rs).

Fixpoint mapM {A B : Type} (f : A -> result B) (l : list A) : result (list B) :=
  match l with
  | [] => Ok []
  | a :: l' => b <- f a ;; bs <- mapM f l' ;; Ok (b :: bs)
  end.

Section Summary.
Context {F : Frames}.

Definition agg (column : list json) (b : key * list record) : result summary_row :=
  total <- agg_sum column (map Story_Points (snd b)) ;;
  Ok {| row_Assignee := JStr (fst (fst b)); row_Reason := snd (fst b);
        Spilled_Issues := count_keys (snd b); row_Story_Points := total |}.

(** [df = pd.DataFrame(records)] down to [summary].  A frame built from
    no record has no column, so selecting one raises. *)
Definition summarize (records : list record) : result (list summary_row) :=
  match records with
  | [] => Raise KeyError
  | _ =>
      if forallb (fun r => string_or_na (Assignee r)) (df_spilled records)
      then mapM (agg (map Story_Points records)) (groupby (df_spilled records))
      else groupby_other records
  end.

End Summary.

(** The order of the rows of [summary]. *)
Definition key_lt (a b : key) : Prop := key_compare a b = Lt.

Definition key_eqb (a b : key) : bool :=
  andb (String.eqb (fst a) (fst b)) (String.eqb (snd a) (snd b)).



(** A record [groupby] and ["count"] take in: its assignee is a string
    and its issue key is not missing. *)
Definition well_keyed (r : record) : bool :=
  match Assignee r with
  | JStr _ => negb (is_na (Issue_Key r))
  | _ => false
  end.

Definition keys (bs : list (key * list record)) : list key := map fst bs.

Definition members (bs : list (key * list record)) : list record :=
  List.concat (map snd bs).

Definition has_group_key (r : record) : bool :=
  match group_key r with
  | Some _ => true
  | None => false
  end.

(** What [groupby] keeps true, turn after turn. *)
Record grouped (rows : list record) (bs : list (key * list record)) : Prop := {
  grouped_sorted : StronglySorted key_lt (keys bs);
  grouped_keys : forall k, In k (keys bs) <-> exists r, In r rows /\ group_key r = Some k;
  grouped_members :
    Permutation (members bs)
                (filter has_group_key rows);
  grouped_at_key : forall b, In b bs -> forall x, In x (snd b) -> group_key x = Some (fst b)
}.

(** ** Classify, then aggregate *)

(** An issue with the name and the window of its sprint. *)
Definition item : Type := json * json * json * json.

Section Pipeline.
Context {P : Pandas} {F : Frames}.

Definition item_record (it : item) : result record :=
  let '(sprint_name, sprint_start, sprint_end, issue) := it in
  issue_record sprint_name sprint_start sprint_end issue.

Fixpoint classify_items (items : list item) (records : list record)
  : result (list record) :=
  match items with
  | [] => Ok records
  | it :: rest =>
      r <- item_record it ;;
      classify_items rest (records ++ [r])
  end.

Definition pipeline (items : list item) : result (list summary_row) :=
  records <- classify_items items [] ;;
  summarize records.

(** The issues the loop over the sprints fetches, each with the name and
    the window of its sprint, as long as nothing is raised. *)
Fixpoint fetched_items (fuel : nat) (srv : service) (sprints : list json)
    (log : list request) : list item :=
  match sprints with
  | [] => []
  | sprint :: rest =>
      match sprint_header sprint with
      | Raise _ => []
      | Ok (sprint_id, sprint_name, sprint_start, sprint_end) =>
          if skip_sprint sprint_start sprint_end
          then fetched_items fuel srv rest log
          else
            match get_issues_for_sprint fuel srv sprint_id log with
            | Some (Ok issues, log') =>
                map (fun i => (sprint_name, sprint_start, sprint_end, i)) issues
                ++ fetched_items fuel srv rest log'
            | _ => []
            end
      end
  end.

(** [analyze_spillovers], up to [summary]. *)
Definition analyze_spillovers (fuel : nat) (srv : service) (log : list request)
  : option (result (list summary_row) * list request) :=
  match collect_records fuel srv log with
  | None => None
  | Some (Raise e, log') => Some (Raise e, log')
  | Some (Ok records, log') => Some (summarize records, log')
  end.

(** [status.lower() == "done"] as read off the issue alone. *)
Definition issue_status (issue : json) : result json :=
  fields <- py_getitem issue "fields" ;;
  st <- py_get fields "status" (JObj []) ;;
  cat <- py_get st "statusCategory" (JObj []) ;;
  py_get cat "name" (JStr "").

Definition is_done (issue : json) : bool :=
  match (status <- issue_status issue ;; py_lower status) with
  | Ok low => String.eqb low "done"
  | Raise _ => false
  end.


End Pipeline.

(** ** A pandas instance to compute with *)

Module Iso.

(** Timestamps as the service writes them:
    [YYYY-MM-DDTHH:MM:SS.mmm] followed by [Z] or [+HHMM] or [-HHMM].
    The day is checked against 1..31 only. *)

Definition digit (c : ascii) : option Z :=
  let n := nat_of_ascii c in
  if andb (48 <=? n)%nat (n <=? 57)%nat then Some (Z.of_nat (n - 48)) else None.

Fixpoint number (n : nat) (acc : Z) (s : string) : option (Z * string) :=
  match n with
  | O => Some (acc, s)
  | S n' =>
      match s with
      | String c s' =>
          match digit c with
          | Some d => number n' (acc * 10 + d)%Z s'
          | None => None
          end
      | EmptyString => None
      end
  end.

Definition expect (c : ascii) (s : string) : option string :=
  match s with
  | String c' s' => if Ascii.eqb c c' then Some s' else None
  | EmptyString => None
  end.

(** Days from 1970-01-01 to the civil date. *)
Definition days_from_civil (y m d : Z) : Z :=
  let y' := (if m <=? 2 then y - 1 else y)%Z in
  let era := (y' / 400)%Z in
  let yoe := (y' - era * 400)%Z in
  let mp := ((m + 9) mod 12)%Z in
  let doy := ((153 * mp + 2) / 5 + d - 1)%Z in
  let doe := (yoe * 365 + yoe / 4 - yoe / 100 + doy)%Z in
  (era * 146097 + doe - 719468)%Z.

Definition obind {A B : Type} (o : option A) (k : A -> option B) : option B :=
  match o with
  | Some a => k a
  | None => None
  end.

Definition zone (s : string) : option Z :=
  match s with
  | String c s' =>
      if Ascii.eqb c "Z"%char then
        match s' with EmptyString => Some 0%Z | _ => None end
      else if orb (Ascii.eqb c "+"%char) (Ascii.eqb c "-"%char) then
        obind (number 2 0 s') (fun '(h, s1) =>
        obind (number 2 0 s1) (fun '(mi, s2) =>
        match s2 with
        | EmptyString =>
            let off := (h * 60 + mi)%Z in
            Some (if Ascii.eqb c "-"%char then (- off)%Z else off)
        | _ => None
        end))
      else None
  | EmptyString => None
  end.

Definition parse (s : string) : option timestamp :=
  obind (number 4 0 s) (fun '(y, s) =>
  obind (expect "-" s) (fun s =>
  obind (number 2 0 s) (fun '(mo, s) =>
  obind (expect "-" s) (fun s =>
  obind (number 2 0 s) (fun '(d, s) =>
  obind (expect "T" s) (fun s =>
  obind (number 2 0 s) (fun '(h, s) =>
  obind (expect ":" s) (fun s =>
  obind (number 2 0 s) (fun '(mi, s) =>
  obind (expect ":" s) (fun s =>
  obind (number 2 0 s) (fun '(se, s) =>
  obind (expect "." s) (fun s =>
  obind (number 3 0 s) (fun '(ms, s) =>
  obind (zone s) (fun off =>
  if andb (andb (1 <=? mo) (mo <=? 12)) (andb (1 <=? d) (d <=? 31))%Z
  then
    let secs := ((days_from_civil y mo d * 24 + h) * 3600 + mi * 60 + se - off * 60)%Z in
    Some {| instant := (secs * 1000 + ms) * 1000000; tz_aware := true |}
  else None))))))))))))))%Z.

(** The fields left open by [Pandas] and [Frames] are filled in the
    simplest way; no theorem below depends on these choices. *)
Definition pandas : Pandas := {|
  parse_datetime := parse;
  null_string := fun s => String.eqb s "";
  to_datetime_other := fun _ v =>
    match v with
    | JNull => Ok PdNone
    | _ => Raise TypeError
    end;
  gt_other := fun _ _ => Raise TypeError
|}.

Definition frames : Frames := {|
  agg_sum := fun _ vs =>
    Ok (JInt (fold_left (fun acc v => match v with JInt z => acc + z | _ => acc end)%Z vs 0%Z));
  groupby_other := fun _ => Raise TypeError
|}.

End Iso.

(** ** Concrete inputs *)

Module Sample.

(** An issue as the service sends it; [assignee] is the whole value of
    the ["assignee"] field, [null] ([JNull]) when nobody is assigned. *)
Definition issue (key status created updated : string)
    (points assignee : json) : json :=
  JObj [("id", JStr "10001");
        ("key", JStr key);
        ("fields",
         JObj [("summary", JStr "Settle the ledger");
               ("status", JObj [("name", JStr status);
                                ("statusCategory", JObj [("id", JInt 3); ("name", JStr status)])]);
               ("created", JStr created);
               ("updated", JStr updated);
               ("customfield_10016", points);
               ("assignee", assignee)])].

Definition user (name : string) : json :=
  JObj [("accountId", JStr "5b10a2844c20165700ede21g"); ("displayName", JStr name)].

Definition sprint_start : json := JStr "2024-03-04T09:00:00.000Z".
Definition sprint_end : json := JStr "2024-03-18T09:00:00.000Z".

Definition before_start : string := "2024-02-20T10:15:00.000+0000".
Definition during_sprint : string := "2024-03-06T08:30:00.000+0000".
Definition after_end : string := "2024-03-20T16:45:00.000+0000".

(** Nobody assigned, still to do, created before the sprint. *)
Definition unassigned_todo : json :=
  issue "PAY-7" "To Do" before_start during_sprint (JInt 3) JNull.

(** No status, otherwise regular. *)
Definition null_status : json :=
  JObj [("key", JStr "PAY-8");
        ("fields", JObj [("status", JNull);
                         ("created", JStr before_start);
                         ("updated", JStr during_sprint);
                         ("assignee", user "Ann")])].

(** The estimate written as a string. *)
Definition string_points : json :=
  issue "PAY-9" "In Progress" before_start during_sprint (JStr "8") (user "Ann").

(** Done, nobody assigned. *)
Definition unassigned_done : json :=
  issue "PAY-10" "Done" before_start during_sprint (JInt 3) JNull.

(** Created during the sprint, nobody assigned, 13 points, updated after
    the end. *)
Definition unassigned_added : json :=
  issue "PAY-11" "In Progress" during_sprint after_end (JInt 13) JNull.

(** Created before the sprint, 8 points, nobody assigned. *)
Definition unassigned_big : json :=
  issue "PAY-12" "In Progress" before_start during_sprint (JInt 8) JNull.

Definition done_issue : json :=
  issue "PAY-1" "DONE" during_sprint after_end (JInt 13) (user "Ann").
Definition added_issue : json :=
  issue "PAY-2" "In Progress" during_sprint after_end (JInt 13) (JObj []).
Definition big_issue : json :=
  issue "PAY-3" "To Do" before_start after_end (JInt 8) (user "Ann").
Definition carried_issue : json :=
  issue "PAY-4" "To Do" before_start after_end (JInt 0) (user "Bo").
Definition plain_issue : json :=
  issue "PAY-5" "In Progress" before_start during_sprint (JInt 2) (user "Bo").

(** Five issues of one sprint: one Done, four spilled, for three
    assignees and with four reasons. *)
Definition items : list item :=
  map (fun i => (JStr "Sprint 7", sprint_start, sprint_end, i))
      [done_issue; added_issue; big_issue; carried_issue; plain_issue;
       issue "PAY-6" "To Do" before_start during_sprint JNull (user "Bo")].

(** The records and the summary the script computes for them, with the
    sample pandas. *)
Definition records : list record :=
  Eval vm_compute in
    match @classify_items Iso.pandas items [] with
    | Ok rs => rs
    | Raise _ => []
    end.

Definition rows : list summary_row :=
  Eval vm_compute in
    match @summarize Iso.frames records with
    | Ok rs => rs
    | Raise _ => []
    end.

(** A page payload of the service. *)
Definition page (k : string) (start_at : nat) (items : list json) (last : bool) : json :=
  JObj [("maxResults", JInt 100);
        ("startAt", JInt (Z.of_nat start_at));
        (k, JArr items);
        ("isLast", JBool last)].


Definition sprint (id : Z) (name : string) : json :=
  JObj [("id", JInt id); ("name", JStr name); ("state", JStr "closed");
        ("startDate", sprint_start); ("endDate", sprint_end)].

(** A closed sprint without dates. *)
Definition undated_sprint (id : Z) (name : string) : json :=
  JObj [("id", JInt id); ("name", JStr name); ("state", JStr "closed")].

(** A board whose sprint list is empty and not marked as last: every
    request at offset 0 gets the same empty page. *)
Definition empty_unmarked : service :=
  fun _ rq =>
    match rq with
    | SprintsPage _ start_at => Ok (page "values" start_at [] false)
    | IssuesPage _ start_at => Ok (page "issues" start_at [] false)
    end.

(** A mock that hands out the pages of a list in turn, whatever is
    asked. *)
Definition in_turn (pages : list json) : service :=
  fun log _ =>
    match nth_error pages (List.length log) with
    | Some p => Ok p
    | None => Raise RequestException
    end.

Definition empty_then_last : service :=
  in_turn [page "values" 0 [] false; page "values" 0 [sprint 7 "Sprint 7"] true].

(** 240 records in pages of at most 100, for either request. *)
Definition pages_240 : service :=
  fun _ rq =>
    match rq with
    | IssuesPage _ start_at =>
        if (start_at =? 0)%nat then Ok (page "issues" 0 (repeat plain_issue 100) false)
        else if (start_at =? 100)%nat then Ok (page "issues" 100 (repeat big_issue 100) false)
        else if (start_at =? 200)%nat then Ok (page "issues" 200 (repeat carried_issue 40) true)
        else Raise RequestException
    | SprintsPage _ start_at =>
        if (start_at =? 0)%nat then Ok (page "values" 0 (repeat (sprint 1 "Sprint 1") 100) false)
        else if (start_at =? 100)%nat then Ok (page "values" 100 (repeat (sprint 2 "Sprint 2") 100) false)
        else if (start_at =? 200)%nat then Ok (page "values" 200 (repeat (sprint 3 "Sprint 3") 40) true)
        else Raise RequestException
    end.


End Sample.

(** ** Pages in a row *)

(** The requests a loop makes for [pages], the first at [start_at] and
    each next one further by the size of the page before it. *)
Fixpoint page_requests (url : nat -> request) (start_at : nat)
    (pages : list (list json * bool)) : list request :=
  match pages with
  | [] => []
  | (items, _) :: rest =>
      url start_at :: page_requests url (start_at + List.length items) rest
  end.

(** All the records of [pages], in order. *)
Definition all_records (pages : list (list json * bool)) : list json :=
  List.concat (map fst pages).

Definition unmarked (p : list json * bool) : Prop := snd p = false.

Definition nonempty (p : list json * bool) : Prop := fst p <> [].

(** ** More concrete inputs *)

Module Cases.

(** Two pages of issues, then a page without any, none marked as last. *)
Definition never_marked : service :=
  fun _ rq =>
    match rq with
    | IssuesPage _ start_at =>
        if (start_at =? 0)%nat
        then Ok (Sample.page "issues" 0 [Sample.plain_issue; Sample.big_issue] false)
        else if (start_at =? 2)%nat
        then Ok (Sample.page "issues" 2 [Sample.carried_issue] false)
        else Ok (Sample.page "issues" start_at [] false)
    | SprintsPage _ _ => Raise RequestException
    end.


(** An issue whose dates are no timestamps. *)
Definition undated_issue : json :=
  Sample.issue "PAY-20" "To Do" "yesterday" "one day" (JInt 3) (Sample.user "Ann").

(** An issue without the ["assignee"] field. *)
Definition nobody_issue : json :=
  JObj [("key", JStr "PAY-21");
        ("fields",
         JObj [("status", JObj [("statusCategory", JObj [("name", JStr "To Do")])]);
               ("created", JStr Sample.before_start);
               ("updated", JStr Sample.during_sprint);
               ("customfield_10016", JNull)])].

(** A board with two closed sprints that have no dates. *)
Definition undated_board : service :=
  fun _ rq =>
    match rq with
    | SprintsPage _ start_at =>
        Ok (Sample.page "values" start_at
              [Sample.undated_sprint 5 "Sprint 5"; Sample.undated_sprint 6 "Sprint 6"] true)
    | IssuesPage _ _ => Raise RequestException
    end.

(** A board with a sprint without dates and one with dates and five
    issues, one page each. *)
Definition small_board : service :=
  fun _ rq =>
    match rq with
    | SprintsPage _ start_at =>
        Ok (Sample.page "values" start_at
              [Sample.undated_sprint 5 "Sprint 5"; Sample.sprint 6 "Sprint 6"] true)
    | IssuesPage _ start_at =>
        Ok (Sample.page "issues" start_at
              [Sample.done_issue; Sample.added_issue; Sample.big_issue;
               Sample.carried_issue; Sample.plain_issue] true)
    end.

(** The summary of a run on that board, with the sample pandas. *)
Definition small_rows : list summary_row :=
  Eval vm_compute in
    match @analyze_spillovers Iso.pandas Iso.frames 1 small_board [] with
    | Some (Ok rs, _) => rs
    | _ => []
    end.

(** A stand-in for the sum that depends on the order of the rows: the
    first value of the group. *)
Definition first_value : Frames := {|
  agg_sum := fun _ vs => Ok (hd JNull vs);
  groupby_other := fun _ => Raise TypeError
|}.

Definition rows_forward : list summary_row :=
  Eval vm_compute in
    match @summarize first_value Sample.records with
    | Ok rs => rs
    | Raise _ => []
    end.

Definition rows_backward : list summary_row :=
  Eval vm_compute in
    match @summarize first_value (rev Sample.records) with
    | Ok rs => rs
    | Raise _ => []
    end.

End Cases.

(** ** The answers of the classifier *)

(** The five reasons [get_spillover_reason] can return. *)
Definition reasons : list string :=
  ["Scope added mid-sprint"; "Underestimated effort";
   "Carried over work post-sprint"; "No assignee during sprint";
   "General delay / blocked"].

(** A number that is at least 8. *)
Definition at_least_8 (v : json) : bool :=
  match v with
  | JInt z => (8 <=? z)%Z
  | JFloat f => float_ge8 f
  | _ => false
  end.

(** What the ["assignee"] field of [fields] looks like when the name read
    from it is ["Unassigned"]: no such field, or an object without a
    display name or with that very name. *)
Definition reads_unassigned (fields : list (string * json)) : Prop :=
  match dict_lookup fields "assignee" with
  | None => True
  | Some (JObj a) =>
      dict_lookup a "displayName" = None \/
      dict_lookup a "displayName" = Some (JStr "Unassigned")
  | Some _ => False
  end.

(** ** The loop over the sprints *)

Section SprintLoop.
Context {P : Pandas}.

(** The sprints the loop passes over: those whose start or end is
    missing, [null], empty or zero. *)
Definition skipped (sprint : json) : bool :=
  match sprint_header sprint with
  | Ok (_, _, sprint_start, sprint_end) => skip_sprint sprint_start sprint_end
  | Raise _ => false
  end.

(** A request for the issues of one of [sprints] that is not passed
    over. *)
Definition asks_for_dated_sprint (sprints : list json) (rq : request) : Prop :=
  exists sprint sprint_id sprint_name sprint_start sprint_end start_at,
    In sprint sprints /\
    sprint_header sprint = Ok (sprint_id, sprint_name, sprint_start, sprint_end) /\
    skip_sprint sprint_start sprint_end = false /\
    rq = IssuesPage sprint_id start_at.

End SprintLoop.

(** ** The rows of the summary *)

(** A record that ["count"] counts in the row of an assignee and a
    reason: it has that assignee and that reason, and an issue key. *)
Definition counted_in (a reason : string) (r : record) : bool :=
  andb (andb (py_eq_str (Assignee r) a)
             (match Spillover_Reason r with
              | Some x => String.eqb x reason
              | None => false
              end))
       (negb (is_na (Issue_Key r))).

Definition has_key (k : key) (r : record) : bool :=
  match group_key r with
  | Some k' => key_eqb k' k
  | None => false
  end.

(** The row of a group with what it counts in [records]. *)
Definition counted_row (records : list record) (k : key) : json * string * nat :=
  (JStr (fst k), snd k, List.length (filter (counted_in (fst k) (snd k)) records)).

(** What a row shows besides the sum of the story points. *)
Definition row_count (row : summary_row) : json * string * nat :=
  (row_Assignee row, row_Reason row, Spilled_Issues row).

(** One row comes before another: by assignee, then by reason. *)
Definition row_lt (r1 r2 : summary_row) : Prop :=
  match row_Assignee r1, row_Assignee r2 with
  | JStr a1, JStr a2 => key_lt (a1, row_Reason r1) (a2, row_Reason r2)
  | _, _ => False
  end.

(** The frame is one this development groups itself: every spilled
    record has a string or nothing for assignee. *)
Definition groupable (records : list record) : bool :=
  forallb (fun r => string_or_na (Assignee r)) (df_spilled records).

(** ** Records the summary leaves out *)


Module Edge.

(** An issue whose key is [null]. *)
Definition keyless_issue : json :=
  JObj [("key", JNull);
        ("fields",
         JObj [("summary", JStr "Settle the ledger");
               ("status", JObj [("statusCategory", JObj [("name", JStr "To Do")])]);
               ("created", JStr Sample.before_start);
               ("updated", JStr Sample.during_sprint);
               ("customfield_10016", JInt 2);
               ("assignee", Sample.user "Bo")])].

(** An issue whose assignee has [null] for display name. *)
Definition nameless_issue : json :=
  Sample.issue "PAY-31" "To Do" Sample.before_start Sample.during_sprint (JInt 2)
    (JObj [("accountId", JStr "5b10a2844c20165700ede21g"); ("displayName", JNull)]).

(** Three issues to do, none Done. *)
Definition items : list item :=
  map (fun i => (JStr "Sprint 7", Sample.sprint_start, Sample.sprint_end, i))
      [Sample.plain_issue; keyless_issue; nameless_issue].

Definition records : list record :=
  Eval vm_compute in
    match @classify_items Iso.pandas items [] with
    | Ok rs => rs
    | Raise _ => []
    end.

Definition rows : list summary_row :=
  Eval vm_compute in
    match @summarize Iso.frames records with
    | Ok rs => rs
    | Raise _ => []
    end.


End Edge.

(** ** pandas at two moments *)



Module Clock.







End Clock.

(** * Properties *)

(** ** The classifier *)

Section ClassifierFacts.
Context {P : Pandas}.

Lemma to_datetime_coerce_string (s : string) :
  to_datetime true (JStr s) = Ok NaT \/
  exists t, to_datetime true (JStr s) = Ok (Timestamp t).
Proof.
  unfold to_datetime.
  destruct (parse_datetime s) as [t|]; [right; now exists t | now left].
Qed.

(** A string that is no timestamp becomes [NaT] under [errors="coerce"],
    and [NaT] is after nothing. *)
Lemma unparseable_is_not_after (s : string) (t : timestamp) :
  parse_datetime s = None ->
  (v <- to_datetime true (JStr s) ;; pd_gt v (Timestamp t)) = Ok false.
Proof.
  intros Hs. unfold to_datetime. now rewrite Hs.
Qed.

Lemma read_fields_sample key st c u points a :
  read_fields (Sample.issue key st c u points a) =
  (created <- to_datetime true (JStr c) ;;
   updated <- to_datetime true (JStr u) ;;
   assignee <- py_get a "displayName" (JStr "Unassigned") ;;
   Ok (mkLocals (JStr st) created updated points assignee)).
Proof.
  unfold read_fields, Sample.issue. cbn.
  destruct (to_datetime_coerce_string c) as [Hc|[tc Hc]];
  destruct (to_datetime_coerce_string u) as [Hu|[tu Hu]];
  rewrite Hc, Hu; reflexivity.
Qed.

(** With nobody assigned, the ["assignee"] field is [null]: reading the
    display name raises, whatever the other fields are. *)
Lemma null_assignee_raises key st c u points sprint_start sprint_end :
  get_spillover_reason (Sample.issue key st c u points JNull) sprint_start sprint_end
  = Raise AttributeError.
Proof.
  unfold get_spillover_reason. rewrite read_fields_sample.
  destruct (to_datetime_coerce_string c) as [Hc|[tc Hc]];
  destruct (to_datetime_coerce_string u) as [Hu|[tu Hu]];
  rewrite Hc, Hu; reflexivity.
Qed.

(** Rule 1, once the fields are read. *)
Lemma done_is_absent issue v low sprint_start sprint_end :
  read_fields issue = Ok v ->
  py_lower (status v) = Ok low ->
  String.eqb low "done" = true ->
  get_spillover_reason issue sprint_start sprint_end = Ok None.
Proof.
  intros Hr Hl Hd. unfold get_spillover_reason, choose_reason.
  rewrite Hr. cbn. rewrite Hl. cbn. now rewrite Hd.
Qed.

(** Rule 2, once the fields are read. *)
Lemma added_mid_sprint issue v low s sprint_start sprint_end :
  read_fields issue = Ok v ->
  py_lower (status v) = Ok low ->
  String.eqb low "done" = false ->
  to_datetime false sprint_start = Ok s ->
  pd_gt (created v) s = Ok true ->
  get_spillover_reason issue sprint_start sprint_end
  = Ok (Some "Scope added mid-sprint").
Proof.
  intros Hr Hl Hd Hs Hg. unfold get_spillover_reason, choose_reason.
  rewrite Hr. cbn. rewrite Hl. cbn. rewrite Hd, Hs. cbn. now rewrite Hg.
Qed.

(** Rule 3, once the fields are read. *)
Lemma underestimated issue v low s sprint_start sprint_end :
  read_fields issue = Ok v ->
  py_lower (status v) = Ok low ->
  String.eqb low "done" = false ->
  to_datetime false sprint_start = Ok s ->
  pd_gt (created v) s = Ok false ->
  big_estimate (story_points v) = Ok true ->
  get_spillover_reason issue sprint_start sprint_end
  = Ok (Some "Underestimated effort").
Proof.
  intros Hr Hl Hd Hs Hg Hb. unfold get_spillover_reason, choose_reason.
  rewrite Hr. cbn. rewrite Hl. cbn. rewrite Hd, Hs. cbn. rewrite Hg. cbn.
  now rewrite Hb.
Qed.

Lemma big_estimate_int (z : Z) :
  big_estimate (JInt z) = Ok (8 <=? z)%Z.
Proof.
  unfold big_estimate, truthy. cbn.
  destruct (Z.eqb_spec z 0) as [->|]; reflexivity.
Qed.

(** A missing estimate reads as [0] and is not big. *)
Lemma missing_estimate_is_small d :
  dict_lookup d "customfield_10016" = None ->
  (sp <- py_get (JObj d) "customfield_10016" (JInt 0) ;; big_estimate sp) = Ok false.
Proof.
  intros Hd. cbn. now rewrite Hd.
Qed.

End ClassifierFacts.

(** ** The fetch loops *)

Section FetchFacts.

Lemma fetch_loop_turn body url fuel srv log acc start_at :
  fetch_loop body url (S fuel) srv log acc start_at =
  match (data <- srv log (url start_at) ;; body data acc start_at) with
  | Raise e => Some (Raise e, log ++ [url start_at])
  | Ok (acc', None) => Some (Ok acc', log ++ [url start_at])
  | Ok (acc', Some next) => fetch_loop body url fuel srv (log ++ [url start_at]) acc' next
  end.
Proof. reflexivity. Qed.

(** More fuel does not change a result. *)
Lemma fetch_loop_more_fuel body url srv fuel :
  forall log acc start_at out,
    fetch_loop body url fuel srv log acc start_at = Some out ->
    forall fuel', fuel <= fuel' ->
    fetch_loop body url fuel' srv log acc start_at = Some out.
Proof.
  induction fuel as [|fuel IH]; intros log acc start_at out Hrun fuel' Hle.
  - discriminate.
  - destruct fuel' as [|fuel']; [lia|].
    rewrite fetch_loop_turn in *.
    destruct (data <- srv log (url start_at) ;; body data acc start_at)
      as [[acc' [next|]]|e]; auto.
    apply IH with (fuel' := fuel'); [assumption | lia].
Qed.

Ltac read_page Hi :=
  unfold page_items, py_len in *; cbn in Hi; cbn;
  match goal with
  | |- context [dict_lookup ?d ?k] =>
      match type of Hi with
      | context [dict_lookup d k] =>
          destruct (dict_lookup d k) as [?vals|]; cbn in Hi; cbn;
          [ match type of Hi with
            | context [py_iter ?v] =>
                destruct (py_iter v) as [?l|]; [|discriminate Hi]
            end
          | ];
          try (injection Hi as Hi); subst; cbn
      end
  end.

(** A payload with a true [isLast] ends [get_sprints]. *)
Lemma sprints_page_last d items sprints start_at last :
  page_items "values" (JObj d) = Ok items ->
  dict_lookup d "isLast" = Some last ->
  truthy last = true ->
  sprints_page (JObj d) sprints start_at = Ok (sprints ++ items, None).
Proof.
  intros Hi Hl Ht. unfold sprints_page.
  read_page Hi; rewrite Hl; cbn; now rewrite Ht.
Qed.

(** A payload with a false [isLast] sends [get_sprints] on, by the
    number of elements it brought. *)
Lemma sprints_page_more d items sprints start_at last :
  page_items "values" (JObj d) = Ok items ->
  dict_lookup d "isLast" = Some last ->
  truthy last = false ->
  sprints_page (JObj d) sprints start_at
  = Ok (sprints ++ items, Some (start_at + List.length items)).
Proof.
  intros Hi Hl Ht. unfold sprints_page.
  read_page Hi; rewrite Hl; cbn; now rewrite Ht.
Qed.


Lemma issues_page_last d items issues start_at last :
  page_items "issues" (JObj d) = Ok items ->
  dict_lookup d "isLast" = Some last ->
  truthy last = true ->
  issues_page (JObj d) issues start_at = Ok (issues ++ items, None).
Proof.
  intros Hi Hl Ht. unfold issues_page.
  read_page Hi; rewrite Hl; cbn; now rewrite Ht.
Qed.

Lemma issues_page_more d items issues start_at last :
  page_items "issues" (JObj d) = Ok items ->
  dict_lookup d "isLast" = Some last ->
  truthy last = false ->
  items <> [] ->
  issues_page (JObj d) issues start_at
  = Ok (issues ++ items, Some (start_at + List.length items)).
Proof.
  intros Hi Hl Ht Hne. unfold issues_page.
  read_page Hi; rewrite Hl; cbn; rewrite Ht; cbn.
  - destruct items; [contradiction|reflexivity].
  - contradiction.
Qed.

Lemma issues_page_no_indicator d items issues start_at :
  page_items "issues" (JObj d) = Ok items ->
  dict_lookup d "isLast" = None ->
  issues_page (JObj d) issues start_at = Ok (issues ++ items, None).
Proof.
  intros Hi Hl. unfold issues_page.
  read_page Hi; now rewrite Hl.
Qed.

(** [get_issues_for_sprint] leaves its loop on a page without issues,
    whatever [isLast] says. *)
Lemma issues_page_empty d issues start_at last :
  page_items "issues" (JObj d) = Ok [] ->
  dict_lookup d "isLast" = Some last ->
  issues_page (JObj d) issues start_at = Ok (issues ++ [], None).
Proof.
  intros Hi Hl. unfold issues_page.
  read_page Hi; rewrite Hl; cbn; destruct (truthy last); reflexivity.
Qed.

Lemma issues_loop_stops_on_empty_page srv fuel sprint_id log issues start_at d last :
  srv log (IssuesPage sprint_id start_at) = Ok (JObj d) ->
  page_items "issues" (JObj d) = Ok [] ->
  dict_lookup d "isLast" = Some last ->
  get_issues_loop (S fuel) srv sprint_id log issues start_at
  = Some (Ok issues, log ++ [IssuesPage sprint_id start_at]).
Proof.
  intros Hs Hi Hl. unfold get_issues_loop. rewrite fetch_loop_turn, Hs. cbn [bind].
  rewrite (issues_page_empty d issues start_at last Hi Hl).
  now rewrite app_nil_r.
Qed.

End FetchFacts.

Section Paging.
Variable srv : service.

Lemma page_items_list k d items :
  dict_lookup d k = Some (JArr items) -> page_items k (JObj d) = Ok items.
Proof. intros H. unfold page_items. cbn. now rewrite H. Qed.



End Paging.






(** The loop of [get_sprints] has no test on the size of the page: on an
    empty page that is not marked as last it asks again, at the same
    offset. *)
Lemma sprints_loop_spins fuel :
  forall log sprints,
    get_sprints_loop fuel Sample.empty_unmarked BOARD_ID log sprints 0 = None.
Proof.
  induction fuel as [|fuel IH]; intros log sprints; [reflexivity|].
  unfold get_sprints_loop in *. rewrite fetch_loop_turn. cbn.
  apply IH.
Qed.

(** C4, at the input where it fails: a board whose (empty) page of
    sprints is not marked as last.  [get_issues_for_sprint] stops on
    such a page after one request; [get_sprints] never returns, whatever
    the number of turns it is given. *)
Theorem get_sprints_never_returns_on_empty_page :
  get_issues_for_sprint 1 Sample.empty_unmarked (JInt 7) []
  = Some (Ok [], [IssuesPage (JInt 7) 0])
  /\
  forall fuel log, get_sprints fuel Sample.empty_unmarked BOARD_ID log = None.
Proof.
  split; [reflexivity|].
  intros fuel log. apply sprints_loop_spins.
Qed.

(** With a mock that hands out its pages in turn, [get_sprints] does go
    past the empty page: it asks a second time for offset 0. *)
Lemma get_sprints_asks_again_after_empty_page :
  get_sprints 2 Sample.empty_then_last BOARD_ID []
  = Some (Ok [Sample.sprint 7 "Sprint 7"], [SprintsPage BOARD_ID 0; SprintsPage BOARD_ID 0]).
Proof. reflexivity. Qed.

(** ** The classifier on issues nobody is assigned to *)

(** C1, at inputs where it fails: the classifier raises on an issue whose
    ["assignee"] is [null], on one whose ["status"] is [null], and on one
    whose estimate is a string; with any pandas for the first two, with
    the sample one for the third. *)
Theorem classifier_raises_on_null_and_malformed_fields :
  (forall (P : Pandas) sprint_start sprint_end,
      get_spillover_reason Sample.unassigned_todo sprint_start sprint_end
      = Raise AttributeError)
  /\
  (forall (P : Pandas) sprint_start sprint_end,
      get_spillover_reason Sample.null_status sprint_start sprint_end
      = Raise AttributeError)
  /\
  @get_spillover_reason Iso.pandas Sample.string_points
      Sample.sprint_start Sample.sprint_end
  = Raise TypeError.
Proof.
  split; [|split].
  - intros P s e. apply null_assignee_raises.
  - intros P s e. reflexivity.
  - reflexivity.
Qed.

(** C2, at an input where it fails: a Done issue nobody is assigned to
    gets no answer, the classifier raises. *)
Theorem done_unassigned_issue_raises :
  is_done Sample.unassigned_done = true
  /\
  forall (P : Pandas) sprint_start sprint_end,
    get_spillover_reason Sample.unassigned_done sprint_start sprint_end
    = Raise AttributeError.
Proof.
  split; [reflexivity|].
  intros P s e. apply null_assignee_raises.
Qed.

(** C3, at an input where it fails: an issue in progress, created during
    the sprint, nobody assigned; the classifier raises instead of
    answering "Scope added mid-sprint". *)
Theorem added_unassigned_issue_raises :
  is_done Sample.unassigned_added = false
  /\
  (c <- @to_datetime Iso.pandas true (JStr Sample.during_sprint) ;;
   s <- @to_datetime Iso.pandas false Sample.sprint_start ;;
   @pd_gt Iso.pandas c s) = Ok true
  /\
  forall (P : Pandas) sprint_start sprint_end,
    get_spillover_reason Sample.unassigned_added sprint_start sprint_end
    = Raise AttributeError.
Proof.
  split; [reflexivity|]. split; [reflexivity|].
  intros P s e. apply null_assignee_raises.
Qed.

(** C7, at an input where it fails: an issue in progress, created before
    the sprint, estimated at 8, nobody assigned; the classifier raises
    instead of answering "Underestimated effort". *)
Theorem big_unassigned_issue_raises :
  is_done Sample.unassigned_big = false
  /\
  (c <- @to_datetime Iso.pandas true (JStr Sample.before_start) ;;
   s <- @to_datetime Iso.pandas false Sample.sprint_start ;;
   @pd_gt Iso.pandas c s) = Ok false
  /\
  big_estimate (JInt 8) = Ok true
  /\
  forall (P : Pandas) sprint_start sprint_end,
    get_spillover_reason Sample.unassigned_big sprint_start sprint_end
    = Raise AttributeError.
Proof.
  split; [reflexivity|]. split; [reflexivity|]. split; [reflexivity|].
  intros P s e. apply null_assignee_raises.
Qed.

(** The five answers on issues that have an assignee object, with the
    sample pandas. *)
Lemma classifier_on_regular_issues :
  let classify i := @get_spillover_reason Iso.pandas i Sample.sprint_start Sample.sprint_end in
  classify Sample.done_issue = Ok None /\
  classify Sample.added_issue = Ok (Some "Scope added mid-sprint") /\
  classify Sample.big_issue = Ok (Some "Underestimated effort") /\
  classify Sample.carried_issue = Ok (Some "Carried over work post-sprint") /\
  classify Sample.plain_issue = Ok (Some "General delay / blocked").
Proof. repeat split; reflexivity. Qed.

(** ** Sprints without dates *)

Section Sprints.
Context {P : Pandas}.

Lemma falsy_when_missing d k :
  dict_lookup d k = None ->
  (v <- py_get (JObj d) k JNull ;; Ok (truthy v)) = Ok false.
Proof. intros H. cbn. now rewrite H. Qed.

(** The test of the loop on a sprint that has an id and a name. *)
Lemma sprint_header_of d id name :
  dict_lookup d "id" = Some id ->
  dict_lookup d "name" = Some name ->
  sprint_header (JObj d)
  = Ok (id, name,
        match dict_lookup d "startDate" with Some v => v | None => JNull end,
        match dict_lookup d "endDate" with Some v => v | None => JNull end).
Proof.
  intros Hid Hname. unfold sprint_header. cbn. rewrite Hid, Hname. cbn.
  destruct (dict_lookup d "startDate"), (dict_lookup d "endDate"); reflexivity.
Qed.

(** C8: a sprint (an object with an id and a name) that lacks its start
    or its end is passed over: the loop goes on with the other sprints
    from the same records and the same log of requests, so no request is
    made for it, no record is added for it, and nothing is raised for it. *)
Theorem undated_sprint_is_skipped (fuel : nat) (srv : service)
    (d : list (string * json)) (id name : json)
    (rest : list json) (log : list request) (records : list record) :
  dict_lookup d "id" = Some id ->
  dict_lookup d "name" = Some name ->
  dict_lookup d "startDate" = None \/ dict_lookup d "endDate" = None ->
  sprint_records fuel srv (JObj d :: rest) log records
  = sprint_records fuel srv rest log records.
Proof.
  intros Hid Hname Hmiss. cbn [sprint_records].
  rewrite (sprint_header_of d id name Hid Hname).
  destruct Hmiss as [H|H]; rewrite H.
  - reflexivity.
  - unfold skip_sprint. cbn. now rewrite orb_true_r.
Qed.

End Sprints.

Lemma undated_sprint_is_skipped_witness :
  @sprint_records Iso.pandas 3 Sample.pages_240
    (Sample.undated_sprint 5 "Sprint 5" :: [Sample.sprint 6 "Sprint 6"]) [] []
  = @sprint_records Iso.pandas 3 Sample.pages_240 [Sample.sprint 6 "Sprint 6"] [] [].
Proof.
  apply (@undated_sprint_is_skipped Iso.pandas 3 Sample.pages_240
           [("id", JInt 5); ("name", JStr "Sprint 5"); ("state", JStr "closed")]
           (JInt 5) (JStr "Sprint 5")).
  - reflexivity.
  - reflexivity.
  - left. reflexivity.
Defined.

(** ** The groups of the summary *)

Section Keys.

Lemma string_compare_refl (s : string) : String.compare s s = Eq.
Proof. now apply String_as_OT.cmp_eq. Qed.

Lemma key_compare_eq (a b : key) : key_compare a b = Eq -> a = b.
Proof.
  destruct a as [a1 a2], b as [b1 b2]. unfold key_compare. cbn.
  destruct (String.compare a1 b1) eqn:H1; try discriminate.
  intros H2. apply String.compare_eq_iff in H1, H2. now subst.
Qed.

Lemma key_compare_refl (a : key) : key_compare a a = Eq.
Proof.
  destruct a as [a1 a2]. unfold key_compare. cbn.
  now rewrite !string_compare_refl.
Qed.

Lemma key_lt_irrefl (a : key) : ~ key_lt a a.
Proof. unfold key_lt. now rewrite key_compare_refl. Qed.

Lemma string_lt_trans (a b c : string) :
  String.compare a b = Lt -> String.compare b c = Lt -> String.compare a c = Lt.
Proof.
  intros H1 H2. apply String_as_OT.cmp_lt.
  apply String_as_OT.lt_trans with (y := b); now apply String_as_OT.cmp_lt.
Qed.

Lemma key_lt_trans (a b c : key) : key_lt a b -> key_lt b c -> key_lt a c.
Proof.
  destruct a as [a1 a2], b as [b1 b2], c as [c1 c2]. unfold key_lt, key_compare. cbn.
  destruct (String.compare a1 b1) eqn:Hab; try discriminate;
  destruct (String.compare b1 c1) eqn:Hbc; try discriminate; intros H1 H2.
  - apply String.compare_eq_iff in Hab, Hbc. subst.
    rewrite string_compare_refl. eapply string_lt_trans; eassumption.
  - apply String.compare_eq_iff in Hab. subst. now rewrite Hbc.
  - apply String.compare_eq_iff in Hbc. subst. now rewrite Hab.
  - now rewrite (string_lt_trans _ _ _ Hab Hbc).
Qed.

Lemma key_compare_gt (a b : key) : key_compare a b = Gt -> key_lt b a.
Proof.
  destruct a as [a1 a2], b as [b1 b2]. unfold key_lt, key_compare. cbn.
  rewrite (String.compare_antisym b1 a1), (String.compare_antisym b2 a2).
  destruct (String.compare a1 b1); cbn; try discriminate; try reflexivity.
  destruct (String.compare a2 b2); cbn; try discriminate; reflexivity.
Qed.

Lemma key_eqb_eq (a b : key) : key_eqb a b = true <-> a = b.
Proof.
  destruct a as [a1 a2], b as [b1 b2]. unfold key_eqb. cbn.
  rewrite andb_true_iff, !String.eqb_eq. split.
  - now intros [-> ->].
  - intros H. injection H as -> ->. now split.
Qed.

End Keys.

Section Buckets.

Lemma bucket_insert_keys k r bs k' :
  In k' (keys (bucket_insert k r bs)) <-> k' = k \/ In k' (keys bs).
Proof.
  induction bs as [|[k0 rs] bs IH]; cbn.
  - intuition.
  - destruct (key_compare k k0) eqn:Hc; cbn.
    + apply key_compare_eq in Hc. subst. intuition.
    + intuition.
    + unfold keys in IH. rewrite IH. intuition.
Qed.

Lemma bucket_insert_sorted k r bs :
  StronglySorted key_lt (keys bs) ->
  StronglySorted key_lt (keys (bucket_insert k r bs)).
Proof.
  induction bs as [|[k0 rs] bs IH]; cbn; intros Hs.
  - repeat constructor.
  - apply StronglySorted_inv in Hs. destruct Hs as [Hs Hall].
    destruct (key_compare k k0) eqn:Hc; cbn.
    + now constructor.
    + constructor; [now constructor|].
      constructor; [exact Hc|].
      rewrite Forall_forall in *. intros x Hx.
      apply key_lt_trans with (b := k0); [exact Hc | now apply Hall].
    + constructor; [now apply IH|].
      rewrite Forall_forall in *. intros x Hx.
      apply bucket_insert_keys in Hx. destruct Hx as [->|Hx].
      * now apply key_compare_gt.
      * now apply Hall.
Qed.

Lemma bucket_insert_members k r bs :
  Permutation (members (bucket_insert k r bs)) (r :: members bs).
Proof.
  induction bs as [|[k0 rs] bs IH]; cbn.
  - reflexivity.
  - destruct (key_compare k k0); cbn.
    + unfold members. cbn. rewrite <- app_assoc. cbn.
      symmetry. apply Permutation_middle.
    + reflexivity.
    + unfold members in *. cbn. rewrite IH.
      symmetry. apply Permutation_middle.
Qed.

(** A record lands in the group of its own key. *)
Lemma bucket_insert_at_key k r bs b x :
  (forall b', In b' bs -> forall y, In y (snd b') -> group_key y = Some (fst b')) ->
  group_key r = Some k ->
  In b (bucket_insert k r bs) -> In x (snd b) -> group_key x = Some (fst b).
Proof.
  induction bs as [|[k0 rs] bs IH]; cbn; intros Hinv Hr Hb Hx.
  - destruct Hb as [<-|[]]. cbn in Hx. destruct Hx as [<-|[]]. exact Hr.
  - destruct (key_compare k k0) eqn:Hc; cbn in Hb.
    + apply key_compare_eq in Hc. subst k0.
      destruct Hb as [<-|Hb]; [|now apply (Hinv b); auto].
      cbn in *. apply in_app_or in Hx. destruct Hx as [Hx|[<-|[]]]; [|exact Hr].
      apply (Hinv (k, rs)); auto.
    + destruct Hb as [<-|Hb]; [|now apply (Hinv b)].
      cbn in Hx. destruct Hx as [<-|[]]. exact Hr.
    + destruct Hb as [<-|Hb]; [apply (Hinv (k0, rs)); auto|].
      apply IH; auto.
Qed.

Lemma fold_groupby rows :
  forall done bs, grouped done bs -> grouped (done ++ rows) (fold_left groupby_step rows bs).
Proof.
  induction rows as [|r rows IH]; intros done bs G; cbn.
  - now rewrite app_nil_r.
  - replace (done ++ r :: rows) with ((done ++ [r]) ++ rows)
      by (now rewrite <- app_assoc).
    apply IH. destruct G as [Gs Gk Gm Ga]. unfold groupby_step.
    destruct (group_key r) as [k|] eqn:Hk.
    + constructor.
      * now apply bucket_insert_sorted.
      * intros k'. rewrite bucket_insert_keys, Gk. split.
        -- intros [->|(x & Hx & Hkx)].
           ++ exists r. split; [apply in_or_app; right; now left | exact Hk].
           ++ exists x. split; [apply in_or_app; now left | exact Hkx].
        -- intros (x & Hx & Hkx). apply in_app_or in Hx.
           destruct Hx as [Hx|[<-|[]]].
           ++ right. now exists x.
           ++ left. congruence.
      * rewrite bucket_insert_members, filter_app. cbn. unfold has_group_key at 2.
        rewrite Hk, Gm. apply Permutation_cons_append.
      * intros b Hb x Hx. eapply bucket_insert_at_key; eassumption.
    + constructor.
      * exact Gs.
      * intros k'. rewrite Gk. split.
        -- intros (x & Hx & Hkx). exists x. split; [apply in_or_app; now left | exact Hkx].
        -- intros (x & Hx & Hkx). apply in_app_or in Hx.
           destruct Hx as [Hx|[<-|[]]]; [now exists x | congruence].
      * rewrite filter_app. cbn. unfold has_group_key at 2.
        rewrite Hk. now rewrite app_nil_r.
      * exact Ga.
Qed.

Lemma groupby_grouped rows : grouped rows (groupby rows).
Proof.
  apply (fold_groupby rows [] []). constructor; cbn.
  - constructor.
  - intros k. split; [intros [] | intros (r & [] & _)].
  - reflexivity.
  - intros b [].
Qed.

Lemma sorted_keys_NoDup (l : list key) : StronglySorted key_lt l -> NoDup l.
Proof.
  induction 1 as [|k l Hs IH Hall]; constructor; [|exact IH].
  intros Hin. rewrite Forall_forall in Hall.
  apply (key_lt_irrefl k). now apply Hall.
Qed.


End Buckets.

(** ** From the issues to the summary *)

Lemma bind_ok {A B : Type} (r : result A) (k : A -> result B) (b : B) :
  bind r k = Ok b -> exists a, r = Ok a /\ k a = Ok b.
Proof. destruct r as [a|e]; cbn; [now exists a | discriminate]. Qed.

Ltac split_bind H :=
  let x := fresh "x" in
  let Hx := fresh "Hx" in
  apply bind_ok in H; destruct H as (x & Hx & H).

Section PipelineFacts.
Context {P : Pandas} {F : Frames}.

Lemma read_fields_status issue v :
  read_fields issue = Ok v -> issue_status issue = Ok (status v).
Proof.
  unfold read_fields, issue_status. intros H.
  do 11 split_bind H. injection H as <-. cbn.
  rewrite Hx. cbn. rewrite Hx0. cbn. rewrite Hx1. cbn. exact Hx2.
Qed.

(** The classifier answers [None] on Done issues and on them only. *)
Lemma choose_reason_None v sprint_start sprint_end reason :
  choose_reason v sprint_start sprint_end = Ok reason ->
  exists low, py_lower (status v) = Ok low /\
              (match reason with Some _ => true | None => false end
               = negb (String.eqb low "done")).
Proof.
  unfold choose_reason. intros H. split_bind H. exists x. split; [exact Hx|].
  destruct (String.eqb x "done"); [now injection H as <-|].
  split_bind H. split_bind H.
  destruct x1; [now injection H as <-|].
  split_bind H. destruct x1; [now injection H as <-|].
  split_bind H. split_bind H.
  destruct x2; [now injection H as <-|].
  destruct (py_eq_str (assignee v) "Unassigned"); now injection H as <-.
Qed.

Lemma reason_iff_not_done issue sprint_start sprint_end reason :
  get_spillover_reason issue sprint_start sprint_end = Ok reason ->
  match reason with Some _ => true | None => false end = negb (is_done issue).
Proof.
  unfold get_spillover_reason. intros H. split_bind H.
  apply choose_reason_None in H. destruct H as (low & Hl & Hr).
  unfold is_done. rewrite (read_fields_status issue x Hx). cbn.
  now rewrite Hl.
Qed.



Lemma classify_items_length items :
  forall acc records,
    classify_items items acc = Ok records ->
    List.length records = List.length acc + List.length items.
Proof.
  induction items as [|it items IH]; intros acc records H; cbn in H.
  - injection H as <-. cbn. lia.
  - split_bind H. apply IH in H. rewrite H, length_app. cbn. lia.
Qed.



Lemma issue_records_items name s e issues :
  forall acc,
    issue_records name s e issues acc
    = classify_items (map (fun i => (name, s, e, i)) issues) acc.
Proof.
  induction issues as [|i issues IH]; intros acc; cbn; [reflexivity|].
  destruct (issue_record name s e i); cbn; [apply IH | reflexivity].
Qed.

Lemma classify_items_app l1 l2 :
  forall acc,
    classify_items (l1 ++ l2) acc
    = (rs <- classify_items l1 acc ;; classify_items l2 rs).
Proof.
  induction l1 as [|it l1 IH]; intros acc; cbn; [reflexivity|].
  destruct (item_record it); cbn; [apply IH | reflexivity].
Qed.

(** The records of the loop over the sprints are those of the issues it
    fetched. *)
Lemma sprint_records_items fuel srv sprints :
  forall log acc records log',
    sprint_records fuel srv sprints log acc = Some (Ok records, log') ->
    classify_items (fetched_items fuel srv sprints log) acc = Ok records.
Proof.
  induction sprints as [|sprint rest IH]; intros log acc records log' H; cbn in *.
  - now injection H as <- <-.
  - destruct (sprint_header sprint) as [[[[id name] s] e]|ex]; [|discriminate].
    destruct (skip_sprint s e); [now apply IH with (log' := log')|].
    destruct (get_issues_for_sprint fuel srv id log) as [[[issues|ex] log1]|];
      try discriminate.
    rewrite classify_items_app, <- issue_records_items.
    destruct (issue_records name s e issues acc) as [rs|ex]; [|discriminate].
    cbn. now apply IH with (log' := log').
Qed.

(** A run of [analyze_spillovers] that reaches its summary is the
    classification and the summary of the issues it fetched. *)
Lemma analyze_spillovers_is_pipeline fuel srv log rows log2 :
  analyze_spillovers fuel srv log = Some (Ok rows, log2) ->
  exists sprints log1,
    get_sprints fuel srv BOARD_ID log = Some (Ok sprints, log1) /\
    pipeline (fetched_items fuel srv sprints log1) = Ok rows.
Proof.
  unfold analyze_spillovers, collect_records. intros H.
  destruct (get_sprints fuel srv BOARD_ID log) as [[[sprints|ex] log1]|];
    try discriminate.
  exists sprints, log1. split; [reflexivity|].
  destruct (sprint_records fuel srv sprints log1 []) as [[[records|ex] log3]|] eqn:Hr;
    try discriminate.
  injection H as Hs <-. unfold pipeline.
  now rewrite (sprint_records_items _ _ _ _ _ _ _ Hr).
Qed.

Lemma well_keyed_has_group_key rows :
  forallb well_keyed rows = true ->
  forallb has_reason rows = true ->
  filter has_group_key rows = rows /\
  filter (fun r => negb (is_na (Issue_Key r))) rows = rows.
Proof.
  induction rows as [|r rows IH]; cbn; [now split|].
  rewrite !andb_true_iff. intros [Hw Hws] [Hr Hrs].
  destruct (IH Hws Hrs) as [IH1 IH2].
  unfold has_group_key, group_key, well_keyed, has_reason in *.
  destruct (Assignee r); try discriminate.
  destruct (Spillover_Reason r); try discriminate.
  rewrite Hw. cbn. now rewrite IH1, IH2.
Qed.


Lemma well_keyed_in_fragment rows :
  forallb well_keyed rows = true ->
  forallb (fun r => string_or_na (Assignee r)) rows = true.
Proof.
  rewrite !forallb_forall. intros H r Hr. specialize (H r Hr).
  unfold well_keyed in H. destruct (Assignee r); try discriminate. reflexivity.
Qed.


End PipelineFacts.

Lemma filter_length_Permutation {A : Type} (f : A -> bool) (l l' : list A) :
  Permutation l l' -> List.length (filter f l) = List.length (filter f l').
Proof.
  induction 1 as [|x l l' _ IH|x y l|l l' l'' _ IH1 _ IH2]; cbn.
  - reflexivity.
  - destruct (f x); cbn; now rewrite IH.
  - destruct (f x), (f y); reflexivity.
  - now rewrite IH1.
Qed.






(** ** Two runs *)



Section TwoRuns.
Variables P1 P2 : Pandas.
Hypothesis gt_same : forall a b, @gt_other P1 a b = @gt_other P2 a b.







End TwoRuns.




(** * Further properties *)

(** ** Any number of pages *)

Section Pages.
Variable srv : service.

Lemma serves_app url k pages :
  forall log start_at more,
    serves srv url k log start_at (pages ++ more) <->
    serves srv url k log start_at pages /\
    serves srv url k (log ++ page_requests url start_at pages)
           (start_at + List.length (all_records pages)) more.
Proof.
  induction pages as [|[items last] pages IH]; intros log start_at more; cbn.
  - rewrite app_nil_r, Nat.add_0_r. tauto.
  - rewrite IH. unfold all_records. cbn.
    rewrite length_app, <- app_assoc, Nat.add_assoc. cbn. tauto.
Qed.

Lemma page_requests_app url pages :
  forall start_at more,
    page_requests url start_at (pages ++ more)
    = page_requests url start_at pages
      ++ page_requests url (start_at + List.length (all_records pages)) more.
Proof.
  induction pages as [|[items last] pages IH]; intros start_at more; cbn.
  - now rewrite Nat.add_0_r.
  - rewrite IH. unfold all_records. cbn.
    now rewrite length_app, Nat.add_assoc.
Qed.

(** After the unmarked pages the loop of [get_sprints] stands at the
    offset they add up to, with their records and their requests. *)
Lemma sprints_loop_prefix board_id pages :
  forall log acc start_at fuel,
    Forall unmarked pages ->
    serves srv (SprintsPage board_id) "values" log start_at pages ->
    get_sprints_loop (List.length pages + fuel) srv board_id log acc start_at
    = get_sprints_loop fuel srv board_id
        (log ++ page_requests (SprintsPage board_id) start_at pages)
        (acc ++ all_records pages)
        (start_at + List.length (all_records pages)).
Proof.
  induction pages as [|[items last] pages IH]; intros log acc start_at fuel Hu Hs.
  - cbn. now rewrite !app_nil_r, Nat.add_0_r.
  - apply Forall_cons_iff in Hu. destruct Hu as [Hl Hu]. unfold unmarked in Hl.
    cbn in Hl. subst last. destruct Hs as ((d & Hd & Hv & Hi) & Hs).
    cbn [List.length Nat.add]. unfold get_sprints_loop in *.
    rewrite fetch_loop_turn, Hd. cbn [bind].
    rewrite (sprints_page_more d items acc start_at (JBool false)
               (page_items_list _ _ _ Hv) Hi eq_refl).
    rewrite (IH _ _ _ fuel Hu Hs). unfold all_records. cbn.
    now rewrite length_app, <- !app_assoc, Nat.add_assoc.
Qed.

Lemma issues_loop_prefix sprint_id pages :
  forall log acc start_at fuel,
    Forall unmarked pages ->
    Forall nonempty pages ->
    serves srv (IssuesPage sprint_id) "issues" log start_at pages ->
    get_issues_loop (List.length pages + fuel) srv sprint_id log acc start_at
    = get_issues_loop fuel srv sprint_id
        (log ++ page_requests (IssuesPage sprint_id) start_at pages)
        (acc ++ all_records pages)
        (start_at + List.length (all_records pages)).
Proof.
  induction pages as [|[items last] pages IH]; intros log acc start_at fuel Hu Hn Hs.
  - cbn. now rewrite !app_nil_r, Nat.add_0_r.
  - apply Forall_cons_iff in Hu. destruct Hu as [Hl Hu]. unfold unmarked in Hl.
    apply Forall_cons_iff in Hn. destruct Hn as [Hne Hn]. unfold nonempty in Hne.
    cbn in Hl, Hne. subst last. destruct Hs as ((d & Hd & Hv & Hi) & Hs).
    cbn [List.length Nat.add]. unfold get_issues_loop in *.
    rewrite fetch_loop_turn, Hd. cbn [bind].
    rewrite (issues_page_more d items acc start_at (JBool false)
               (page_items_list _ _ _ Hv) Hi eq_refl Hne).
    rewrite (IH _ _ _ fuel Hu Hn Hs). unfold all_records. cbn.
    now rewrite length_app, <- !app_assoc, Nat.add_assoc.
Qed.

End Pages.

(** X1: served any number of pages of which only the last is marked,
    [get_sprints] returns all their records in order and asks once per
    page, each time at the number of records received so far. *)
Theorem get_sprints_collects_all_pages (srv : service) (board_id : Z)
    (log : list request) (pages : list (list json * bool)) (last : list json)
    (fuel : nat) :
  Forall unmarked pages ->
  serves srv (SprintsPage board_id) "values" log 0 (pages ++ [(last, true)]) ->
  List.length pages < fuel ->
  get_sprints fuel srv board_id log
  = Some (Ok (all_records pages ++ last),
          log ++ page_requests (SprintsPage board_id) 0 (pages ++ [(last, true)])).
Proof.
  intros Hu Hs Hfuel. apply serves_app in Hs. destruct Hs as [Hs Hlast].
  cbn in Hlast. destruct Hlast as ((d & Hd & Hv & Hi) & _).
  replace fuel with (List.length pages + S (fuel - S (List.length pages))) by lia.
  unfold get_sprints. rewrite (sprints_loop_prefix srv board_id pages _ _ _ _ Hu Hs).
  cbn [Nat.add app]. unfold get_sprints_loop. rewrite fetch_loop_turn, Hd. cbn [bind].
  rewrite (sprints_page_last d last _ _ (JBool true) (page_items_list _ _ _ Hv) Hi eq_refl).
  rewrite page_requests_app. cbn. now rewrite <- app_assoc.
Qed.

Lemma get_sprints_collects_all_pages_witness :
  get_sprints 3 Sample.pages_240 1 []
  = Some (Ok (all_records [(repeat (Sample.sprint 1 "Sprint 1") 100, false);
                           (repeat (Sample.sprint 2 "Sprint 2") 100, false)]
              ++ repeat (Sample.sprint 3 "Sprint 3") 40),
          [] ++ page_requests (SprintsPage 1) 0
                  ([(repeat (Sample.sprint 1 "Sprint 1") 100, false);
                    (repeat (Sample.sprint 2 "Sprint 2") 100, false)]
                   ++ [(repeat (Sample.sprint 3 "Sprint 3") 40, true)])).
Proof.
  apply (get_sprints_collects_all_pages Sample.pages_240 1 []).
  - repeat constructor.
  - cbn [serves app]. rewrite !repeat_length. cbn [Nat.add].
    repeat split; eexists; (split; [reflexivity | split; reflexivity]).
  - cbn. lia.
Defined.

(** X2: the same for [get_issues_for_sprint], when the pages before the
    last one are not empty. *)
Theorem get_issues_collects_all_pages (srv : service) (sprint_id : json)
    (log : list request) (pages : list (list json * bool)) (last : list json)
    (fuel : nat) :
  Forall unmarked pages ->
  Forall nonempty pages ->
  serves srv (IssuesPage sprint_id) "issues" log 0 (pages ++ [(last, true)]) ->
  List.length pages < fuel ->
  get_issues_for_sprint fuel srv sprint_id log
  = Some (Ok (all_records pages ++ last),
          log ++ page_requests (IssuesPage sprint_id) 0 (pages ++ [(last, true)])).
Proof.
  intros Hu Hn Hs Hfuel. apply serves_app in Hs. destruct Hs as [Hs Hlast].
  cbn in Hlast. destruct Hlast as ((d & Hd & Hv & Hi) & _).
  replace fuel with (List.length pages + S (fuel - S (List.length pages))) by lia.
  unfold get_issues_for_sprint.
  rewrite (issues_loop_prefix srv sprint_id pages _ _ _ _ Hu Hn Hs).
  cbn [Nat.add app]. unfold get_issues_loop. rewrite fetch_loop_turn, Hd. cbn [bind].
  rewrite (issues_page_last d last _ _ (JBool true) (page_items_list _ _ _ Hv) Hi eq_refl).
  rewrite page_requests_app. cbn. now rewrite <- app_assoc.
Qed.

Lemma get_issues_collects_all_pages_witness :
  get_issues_for_sprint 3 Sample.pages_240 (JInt 7) []
  = Some (Ok (all_records [(repeat Sample.plain_issue 100, false);
                           (repeat Sample.big_issue 100, false)]
              ++ repeat Sample.carried_issue 40),
          [] ++ page_requests (IssuesPage (JInt 7)) 0
                  ([(repeat Sample.plain_issue 100, false);
                    (repeat Sample.big_issue 100, false)]
                   ++ [(repeat Sample.carried_issue 40, true)])).
Proof.
  apply (get_issues_collects_all_pages Sample.pages_240 (JInt 7) []).
  - repeat constructor.
  - repeat constructor; discriminate.
  - cbn [serves app]. rewrite !repeat_length. cbn [Nat.add].
    repeat split; eexists; (split; [reflexivity | split; reflexivity]).
  - cbn. lia.
Defined.

(** X3: a page without issues ends [get_issues_for_sprint], marked as
    last or not: after pages that were not empty, it returns their
    records and has asked once more, for the empty page. *)
Theorem get_issues_ends_on_empty_page (srv : service) (sprint_id : json)
    (log : list request) (pages : list (list json * bool))
    (d : list (string * json)) (fuel : nat) :
  Forall unmarked pages ->
  Forall nonempty pages ->
  serves srv (IssuesPage sprint_id) "issues" log 0 pages ->
  srv (log ++ page_requests (IssuesPage sprint_id) 0 pages)
      (IssuesPage sprint_id (List.length (all_records pages))) = Ok (JObj d) ->
  page_items "issues" (JObj d) = Ok [] ->
  List.length pages < fuel ->
  get_issues_for_sprint fuel srv sprint_id log
  = Some (Ok (all_records pages),
          log ++ page_requests (IssuesPage sprint_id) 0 pages
              ++ [IssuesPage sprint_id (List.length (all_records pages))]).
Proof.
  intros Hu Hn Hs Hd Hi Hfuel.
  replace fuel with (List.length pages + S (fuel - S (List.length pages))) by lia.
  unfold get_issues_for_sprint.
  rewrite (issues_loop_prefix srv sprint_id pages _ _ _ _ Hu Hn Hs).
  cbn [Nat.add app]. unfold get_issues_loop. rewrite fetch_loop_turn, Hd. cbn [bind].
  destruct (dict_lookup d "isLast") as [last|] eqn:Hl.
  - rewrite (issues_page_empty d _ _ last Hi Hl).
    now rewrite app_nil_r, <- app_assoc.
  - rewrite (issues_page_no_indicator d [] _ _ Hi Hl).
    now rewrite app_nil_r, <- app_assoc.
Qed.

Lemma get_issues_ends_on_empty_page_witness :
  get_issues_for_sprint 3 Cases.never_marked (JInt 7) []
  = Some (Ok (all_records [([Sample.plain_issue; Sample.big_issue], false);
                           ([Sample.carried_issue], false)]),
          [] ++ page_requests (IssuesPage (JInt 7)) 0
                  [([Sample.plain_issue; Sample.big_issue], false);
                   ([Sample.carried_issue], false)]
             ++ [IssuesPage (JInt 7)
                   (List.length (all_records [([Sample.plain_issue; Sample.big_issue], false);
                                              ([Sample.carried_issue], false)]))]).
Proof.
  apply (get_issues_ends_on_empty_page Cases.never_marked (JInt 7) []
           [([Sample.plain_issue; Sample.big_issue], false);
            ([Sample.carried_issue], false)]
           [("maxResults", JInt 100); ("startAt", JInt 3);
            ("issues", JArr []); ("isLast", JBool false)]).
  - repeat constructor.
  - repeat constructor; discriminate.
  - cbn. repeat split; eexists; (split; [reflexivity | split; reflexivity]).
  - reflexivity.
  - reflexivity.
  - cbn. lia.
Defined.



(** ** What the answers of the classifier tell *)

Section Answers.
Context {P : Pandas}.

(** The chain of tests, read backwards from its answer. *)
Lemma choose_reason_cases v sprint_start sprint_end r :
  choose_reason v sprint_start sprint_end = Ok r ->
  exists low, py_lower (status v) = Ok low /\
  ((String.eqb low "done" = true /\ r = None) \/
   (String.eqb low "done" = false /\
    exists s, to_datetime false sprint_start = Ok s /\
    ((pd_gt (created v) s = Ok true /\ r = Some "Scope added mid-sprint") \/
     (pd_gt (created v) s = Ok false /\
      ((big_estimate (story_points v) = Ok true /\ r = Some "Underestimated effort") \/
       (big_estimate (story_points v) = Ok false /\
        exists e, to_datetime false sprint_end = Ok e /\
        ((pd_gt (updated v) e = Ok true /\ r = Some "Carried over work post-sprint") \/
         (pd_gt (updated v) e = Ok false /\
          py_eq_str (assignee v) "Unassigned" = true /\
          r = Some "No assignee during sprint") \/
         (pd_gt (updated v) e = Ok false /\
          py_eq_str (assignee v) "Unassigned" = false /\
          r = Some "General delay / blocked")))))))).
Proof.
  unfold choose_reason. intros H. split_bind H. exists x. split; [exact Hx|].
  destruct (String.eqb x "done"); [left; now injection H as <-|].
  right. split; [reflexivity|].
  split_bind H. exists x0. split; [exact Hx0|]. split_bind H.
  destruct x1; [left; now injection H as <-|].
  right. split; [exact Hx1|]. split_bind H.
  destruct x1; [left; now injection H as <-|].
  right. split; [exact Hx2|].
  split_bind H. exists x1. split; [exact Hx3|]. split_bind H.
  destruct x2; [left; now injection H as <-|].
  right. destruct (py_eq_str (assignee v) "Unassigned"); injection H as <-; auto.
Qed.

Lemma py_getitem_ok v k y :
  py_getitem v k = Ok y -> exists d, v = JObj d /\ dict_lookup d k = Some y.
Proof.
  destruct v as [| | | | |l|d]; try discriminate. cbn.
  destruct (dict_lookup d k) as [x|] eqn:E; [|discriminate].
  intros [= <-]. now exists d.
Qed.

Lemma py_get_ok v k dflt y :
  py_get v k dflt = Ok y ->
  exists d, v = JObj d /\
            y = match dict_lookup d k with Some x => x | None => dflt end.
Proof.
  destruct v as [| | | | |l|d]; try discriminate. cbn.
  intros H. exists d. split; [reflexivity|].
  destruct (dict_lookup d k) as [x|]; now injection H as <-.
Qed.

Lemma read_fields_object issue v :
  read_fields issue = Ok v ->
  exists d f, issue = JObj d /\ dict_lookup d "fields" = Some (JObj f) /\
    to_datetime true (match dict_lookup f "created" with Some x => x | None => JNull end)
      = Ok (created v) /\
    to_datetime true (match dict_lookup f "updated" with Some x => x | None => JNull end)
      = Ok (updated v) /\
    story_points v
      = match dict_lookup f "customfield_10016" with Some x => x | None => JInt 0 end /\
    py_get (match dict_lookup f "assignee" with Some x => x | None => JObj [] end)
           "displayName" (JStr "Unassigned") = Ok (assignee v).
Proof.
  unfold read_fields. intros H. do 11 split_bind H. injection H as <-. cbn.
  apply py_getitem_ok in Hx. destruct Hx as (d & -> & Hd).
  apply py_get_ok in Hx0. destruct Hx0 as (f & -> & _).
  apply py_get_ok in Hx3. destruct Hx3 as (f1 & [= <-] & ->).
  apply py_get_ok in Hx5. destruct Hx5 as (f2 & [= <-] & ->).
  apply py_get_ok in Hx7. destruct Hx7 as (f3 & [= <-] & ->).
  apply py_get_ok in Hx8. destruct Hx8 as (f4 & [= <-] & ->).
  exists d, f. repeat split; assumption.
Qed.

Lemma big_estimate_true v : big_estimate v = Ok true -> at_least_8 v = true.
Proof.
  unfold big_estimate. destruct (truthy v); [|discriminate].
  destruct v; cbn; try discriminate; now intros [= ->].
Qed.

Lemma string_is_not_after s c :
  parse_datetime c = None ->
  forall x, to_datetime false (JStr s) = Ok x ->
  forall y, to_datetime true (JStr c) = Ok y ->
  pd_gt y x = Ok false.
Proof.
  intros Hc x Hx y Hy. unfold to_datetime in *. rewrite Hc in Hy. cbn in Hy.
  injection Hy as <-.
  destruct (parse_datetime s); [now injection Hx as <-|].
  destruct (null_string s); cbn in Hx; [now injection Hx as <-|discriminate].
Qed.

End Answers.

(** X5: when the classifier answers with a reason, it is one of the five
    labels of the script. *)
Theorem reason_is_one_of_five {P : Pandas} (issue sprint_start sprint_end : json)
    (r : string) :
  get_spillover_reason issue sprint_start sprint_end = Ok (Some r) ->
  In r reasons.
Proof.
  unfold get_spillover_reason. intros H. split_bind H.
  apply choose_reason_cases in H. unfold reasons.
  destruct H as (low & _ & [[_ H]|(_ & s & _ & [[_ H]|(_ & [[_ H]|(_ & e & _ & [[_ H]|[(_ & _ & H)|(_ & _ & H)]])])])]);
    try discriminate H; injection H as ->; cbn; auto 10.
Qed.

Lemma reason_is_one_of_five_witness :
  In "Carried over work post-sprint" reasons.
Proof.
  apply (@reason_is_one_of_five Iso.pandas Sample.carried_issue
           Sample.sprint_start Sample.sprint_end).
  vm_compute. reflexivity.
Defined.

(** X6: when the classifier answers, its answer is [None] for the issues
    whose status category reads "done" in any case, and for no other. *)
Theorem no_reason_exactly_when_done {P : Pandas} (issue sprint_start sprint_end : json)
    (r : option string) :
  get_spillover_reason issue sprint_start sprint_end = Ok r ->
  (r = None <-> is_done issue = true).
Proof.
  intros H. apply reason_iff_not_done in H.
  destruct r, (is_done issue); cbn in H; split; intros; congruence.
Qed.

Lemma no_reason_exactly_when_done_witness :
  (Some "General delay / blocked" = None <-> is_done Sample.plain_issue = true)
  /\ (None = @None string <-> is_done Sample.done_issue = true).
Proof.
  split.
  - apply (@no_reason_exactly_when_done Iso.pandas Sample.plain_issue
             Sample.sprint_start Sample.sprint_end).
    vm_compute. reflexivity.
  - apply (@no_reason_exactly_when_done Iso.pandas Sample.done_issue
             Sample.sprint_start Sample.sprint_end).
    vm_compute. reflexivity.
Defined.

(** X7: on a Done issue the dates of the sprint are not looked at: the
    classifier does the same whatever they are, even if they cannot be
    read as dates. *)
Theorem done_issue_ignores_the_window {P : Pandas}
    (issue sprint_start sprint_end sprint_start' sprint_end' : json) :
  is_done issue = true ->
  get_spillover_reason issue sprint_start sprint_end
  = get_spillover_reason issue sprint_start' sprint_end'.
Proof.
  intros Hd. unfold get_spillover_reason.
  destruct (read_fields issue) as [v|e] eqn:Hr; [|reflexivity]. cbn.
  unfold is_done in Hd. rewrite (read_fields_status issue v Hr) in Hd. cbn in Hd.
  unfold choose_reason. destruct (py_lower (status v)) as [low|]; [|discriminate].
  cbn. now rewrite Hd.
Qed.

Lemma done_issue_ignores_the_window_witness :
  @get_spillover_reason Iso.pandas Sample.done_issue Sample.sprint_start Sample.sprint_end
  = @get_spillover_reason Iso.pandas Sample.done_issue (JStr "soon") (JInt 0).
Proof.
  apply (@done_issue_ignores_the_window Iso.pandas Sample.done_issue).
  vm_compute. reflexivity.
Defined.

(** X8: the answers "Scope added mid-sprint" and "Underestimated effort"
    are given before the end of the sprint is looked at: they stay the
    same for any other end, even one that cannot be read as a date. *)
Theorem early_answers_ignore_sprint_end {P : Pandas}
    (issue sprint_start sprint_end sprint_end' : json) (r : string) :
  get_spillover_reason issue sprint_start sprint_end = Ok (Some r) ->
  r = "Scope added mid-sprint" \/ r = "Underestimated effort" ->
  get_spillover_reason issue sprint_start sprint_end' = Ok (Some r).
Proof.
  unfold get_spillover_reason. intros H Hr. split_bind H. rewrite Hx. cbn.
  apply choose_reason_cases in H.
  destruct H as (low & Hl & [[_ H]|(Hd & s & Hs & H)]); [discriminate|].
  unfold choose_reason. rewrite Hl. cbn. rewrite Hd, Hs. cbn.
  destruct H as [[Hg H]|(Hg & H)]; rewrite Hg; cbn; [now rewrite H|].
  destruct H as [[Hb H]|(Hb & e & _ & H)]; rewrite Hb; cbn; [now rewrite H|].
  exfalso.
  destruct H as [[_ H]|[(_ & _ & H)|(_ & _ & H)]]; injection H as ->;
    destruct Hr; discriminate.
Qed.

Lemma early_answers_ignore_sprint_end_witness :
  @get_spillover_reason Iso.pandas Sample.big_issue Sample.sprint_start (JStr "never")
  = Ok (Some "Underestimated effort").
Proof.
  apply (@early_answers_ignore_sprint_end Iso.pandas Sample.big_issue
           Sample.sprint_start Sample.sprint_end).
  - vm_compute. reflexivity.
  - right. reflexivity.
Defined.

(** X9: an issue whose creation date is a string pandas cannot read is
    never answered "Scope added mid-sprint", when the start of the sprint
    is a string. *)
Theorem unreadable_created_is_never_added {P : Pandas}
    (d f : list (string * json)) (c s : string) (sprint_end : json) :
  dict_lookup d "fields" = Some (JObj f) ->
  dict_lookup f "created" = Some (JStr c) ->
  parse_datetime c = None ->
  get_spillover_reason (JObj d) (JStr s) sprint_end
  <> Ok (Some "Scope added mid-sprint").
Proof.
  intros Hf Hc Hp H. unfold get_spillover_reason in H. split_bind H.
  apply read_fields_object in Hx.
  destruct Hx as (d' & f' & [= <-] & Hf' & Hcr & _).
  rewrite Hf in Hf'. injection Hf' as <-. rewrite Hc in Hcr.
  apply choose_reason_cases in H.
  destruct H as (low & _ & [[_ H]|(_ & st & Hs & [[Hg _]|(_ & [[_ H]|(_ & e & _ & [[_ H]|[(_ & _ & H)|(_ & _ & H)]])])])]);
    try discriminate H.
  rewrite (string_is_not_after s c Hp st Hs (created x) Hcr) in Hg. discriminate Hg.
Qed.

Lemma unreadable_created_is_never_added_witness :
  @get_spillover_reason Iso.pandas Cases.undated_issue Sample.sprint_start Sample.sprint_end
  <> Ok (Some "Scope added mid-sprint").
Proof.
  unfold Cases.undated_issue, Sample.issue, Sample.sprint_start.
  eapply (@unreadable_created_is_never_added Iso.pandas _ _ "yesterday").
  - reflexivity.
  - reflexivity.
  - reflexivity.
Defined.

(** X10: an issue whose last update is a string pandas cannot read is
    never answered "Carried over work post-sprint", when the end of the
    sprint is a string. *)
Theorem unreadable_updated_is_never_carried {P : Pandas}
    (d f : list (string * json)) (u e : string) (sprint_start : json) :
  dict_lookup d "fields" = Some (JObj f) ->
  dict_lookup f "updated" = Some (JStr u) ->
  parse_datetime u = None ->
  get_spillover_reason (JObj d) sprint_start (JStr e)
  <> Ok (Some "Carried over work post-sprint").
Proof.
  intros Hf Hu Hp H. unfold get_spillover_reason in H. split_bind H.
  apply read_fields_object in Hx.
  destruct Hx as (d' & f' & [= <-] & Hf' & _ & Hup & _).
  rewrite Hf in Hf'. injection Hf' as <-. rewrite Hu in Hup.
  apply choose_reason_cases in H.
  destruct H as (low & _ & [[_ H]|(_ & st & _ & [[_ H]|(_ & [[_ H]|(_ & en & He & [[Hg _]|[(_ & _ & H)|(_ & _ & H)]])])])]);
    try discriminate H.
  rewrite (string_is_not_after e u Hp en He (updated x) Hup) in Hg. discriminate Hg.
Qed.

Lemma unreadable_updated_is_never_carried_witness :
  @get_spillover_reason Iso.pandas Cases.undated_issue Sample.sprint_start Sample.sprint_end
  <> Ok (Some "Carried over work post-sprint").
Proof.
  unfold Cases.undated_issue, Sample.issue, Sample.sprint_end.
  eapply (@unreadable_updated_is_never_carried Iso.pandas _ _ "one day").
  - reflexivity.
  - reflexivity.
  - reflexivity.
Defined.

(** X11: "Underestimated effort" is only answered for an issue that
    carries an estimate, and one that is a number of at least 8: never for
    a missing or [null] estimate, nor for [true]. *)
Theorem underestimated_means_estimate_of_8 {P : Pandas}
    (issue sprint_start sprint_end : json) :
  get_spillover_reason issue sprint_start sprint_end = Ok (Some "Underestimated effort") ->
  exists d f sp,
    issue = JObj d /\ dict_lookup d "fields" = Some (JObj f) /\
    dict_lookup f "customfield_10016" = Some sp /\ at_least_8 sp = true.
Proof.
  unfold get_spillover_reason. intros H. split_bind H.
  apply read_fields_object in Hx.
  destruct Hx as (d & f & -> & Hf & _ & _ & Hsp & _).
  apply choose_reason_cases in H.
  destruct H as (low & _ & [[_ H]|(_ & st & _ & [[_ H]|(_ & [[Hb _]|(_ & e & _ & [[_ H]|[(_ & _ & H)|(_ & _ & H)]])])])]);
    try discriminate H.
  apply big_estimate_true in Hb. rewrite Hsp in Hb.
  exists d, f. destruct (dict_lookup f "customfield_10016") as [sp|]; [|discriminate Hb].
  exists sp. auto.
Qed.

Lemma underestimated_means_estimate_of_8_witness :
  exists d f sp,
    Sample.big_issue = JObj d /\ dict_lookup d "fields" = Some (JObj f) /\
    dict_lookup f "customfield_10016" = Some sp /\ at_least_8 sp = true.
Proof.
  apply (@underestimated_means_estimate_of_8 Iso.pandas Sample.big_issue
           Sample.sprint_start Sample.sprint_end).
  vm_compute. reflexivity.
Defined.

(** X12: "No assignee during sprint" is only answered for an issue that
    has no ["assignee"] field, or whose assignee object has no display
    name or the display name "Unassigned". *)
Theorem no_assignee_means_nothing_to_read {P : Pandas}
    (issue sprint_start sprint_end : json) :
  get_spillover_reason issue sprint_start sprint_end
  = Ok (Some "No assignee during sprint") ->
  exists d f,
    issue = JObj d /\ dict_lookup d "fields" = Some (JObj f) /\ reads_unassigned f.
Proof.
  unfold get_spillover_reason. intros H. split_bind H.
  apply read_fields_object in Hx.
  destruct Hx as (d & f & -> & Hf & _ & _ & _ & Ha).
  apply choose_reason_cases in H.
  destruct H as (low & _ & [[_ H]|(_ & st & _ & [[_ H]|(_ & [[_ H]|(_ & e & _ & [[_ H]|[(_ & Hu & _)|(_ & _ & H)]])])])]);
    try discriminate H.
  exists d, f. split; [reflexivity|]. split; [exact Hf|].
  unfold reads_unassigned. destruct (dict_lookup f "assignee") as [a|]; [|exact I].
  apply py_get_ok in Ha. destruct Ha as (da & -> & Hn).
  destruct (dict_lookup da "displayName") as [n|]; [right|now left].
  rewrite Hn in Hu. unfold py_eq_str in Hu.
  destruct n; try discriminate Hu. apply String.eqb_eq in Hu. now subst.
Qed.

Lemma no_assignee_means_nothing_to_read_witness :
  exists d f,
    Cases.nobody_issue = JObj d /\ dict_lookup d "fields" = Some (JObj f) /\
    reads_unassigned f.
Proof.
  apply (@no_assignee_means_nothing_to_read Iso.pandas Cases.nobody_issue
           Sample.sprint_start Sample.sprint_end).
  vm_compute. reflexivity.
Defined.

(** ** The records of a run *)

Section RecordFacts.
Context {P : Pandas}.

Lemma issue_records_each name s e issues :
  forall acc records,
    issue_records name s e issues acc = Ok records ->
    exists rs, records = acc ++ rs /\
               Forall2 (fun i r => issue_record name s e i = Ok r) issues rs.
Proof.
  induction issues as [|i issues IH]; intros acc records H; cbn in H.
  - injection H as <-. exists []. split; [now rewrite app_nil_r | constructor].
  - split_bind H. apply IH in H. destruct H as (rs & -> & Hall).
    exists (x :: rs). split; [now rewrite <- app_assoc | now constructor].
Qed.

Lemma fetch_loop_log body url srv fuel :
  forall log acc start_at res log',
    fetch_loop body url fuel srv log acc start_at = Some (res, log') ->
    exists reqs, log' = log ++ reqs /\ Forall (fun rq => exists n, rq = url n) reqs.
Proof.
  induction fuel as [|fuel IH]; intros log acc start_at res log' H; [discriminate|].
  rewrite fetch_loop_turn in H.
  destruct (data <- srv log (url start_at) ;; body data acc start_at)
    as [[acc' [next|]]|e].
  - apply IH in H. destruct H as (reqs & -> & Hall).
    exists (url start_at :: reqs). split; [now rewrite <- app_assoc|].
    constructor; [now exists start_at | exact Hall].
  - injection H as _ <-. exists [url start_at]. split; [reflexivity|].
    constructor; [now exists start_at | constructor].
  - injection H as _ <-. exists [url start_at]. split; [reflexivity|].
    constructor; [now exists start_at | constructor].
Qed.

Lemma all_skipped_no_records fuel srv sprints :
  forall log records,
    forallb skipped sprints = true ->
    sprint_records fuel srv sprints log records = Some (Ok records, log).
Proof.
  induction sprints as [|sprint rest IH]; intros log records H; cbn in *; [reflexivity|].
  apply andb_true_iff in H. destruct H as [Hs Hrest]. unfold skipped in Hs.
  destruct (sprint_header sprint) as [[[[id name] s] e]|ex]; [|discriminate].
  rewrite Hs. now apply IH.
Qed.

End RecordFacts.

(** X13: the columns of a record agree with its reason: the reason is
    missing exactly when the status of the record reads "done"; a record
    answered "No assignee during sprint" has the assignee "Unassigned"; a
    record answered "Underestimated effort" has a numeric estimate of at
    least 8; and the record carries the name of its sprint. *)
Theorem record_columns_agree_with_reason {P : Pandas}
    (sprint_name sprint_start sprint_end issue : json) (r : record) :
  issue_record sprint_name sprint_start sprint_end issue = Ok r ->
  Sprint r = sprint_name /\
  (Spillover_Reason r = None <-> py_lower (Status r) = Ok "done") /\
  (Spillover_Reason r = Some "No assignee during sprint" ->
   Assignee r = JStr "Unassigned") /\
  (Spillover_Reason r = Some "Underestimated effort" ->
   at_least_8 (Story_Points r) = true).
Proof.
  unfold issue_record. intros H. do 10 split_bind H. injection H as <-. cbn.
  unfold get_spillover_reason in Hx6. split_bind Hx6.
  unfold read_fields in Hx9. do 11 split_bind Hx9. injection Hx9 as <-.
  rewrite Hx in Hx10. injection Hx10 as <-.
  rewrite Hx2 in Hx11. injection Hx11 as <-.
  rewrite Hx3 in Hx12. injection Hx12 as <-.
  rewrite Hx4 in Hx13. injection Hx13 as <-.
  rewrite Hx5 in Hx18. injection Hx18 as <-.
  rewrite Hx0 in Hx19. injection Hx19 as <-.
  rewrite Hx1 in Hx20. injection Hx20 as <-.
  apply choose_reason_cases in Hx6. cbn in Hx6.
  destruct Hx6 as (low & Hl & Hcases). split; [reflexivity|].
  rewrite Hl.
  destruct Hcases as [[Hd ->]|(Hd & st & _ & [[_ ->]|(_ & [[Hb ->]|(_ & e & _ & [[_ ->]|[(_ & Hu & ->)|(_ & _ & ->)]])])])].
  - apply String.eqb_eq in Hd. subst low.
    repeat split; intros; try discriminate; reflexivity.
  - repeat split; intros H; try discriminate H.
    injection H as ->. discriminate Hd.
  - repeat split; intros H; try discriminate H.
    + injection H as ->. discriminate Hd.
    + now apply big_estimate_true.
  - repeat split; intros H; try discriminate H.
    injection H as ->. discriminate Hd.
  - repeat split; intros H; try discriminate H.
    + injection H as ->. discriminate Hd.
    + unfold py_eq_str in Hu. destruct x1; try discriminate Hu.
      apply String.eqb_eq in Hu. now subst.
  - repeat split; intros H; try discriminate H.
    injection H as ->. discriminate Hd.
Qed.

Lemma record_columns_agree_with_reason_witness :
  exists r,
    @issue_record Iso.pandas (JStr "Sprint 7") Sample.sprint_start Sample.sprint_end
      Cases.nobody_issue = Ok r /\
    Sprint r = JStr "Sprint 7" /\
    (Spillover_Reason r = None <-> py_lower (Status r) = Ok "done") /\
    (Spillover_Reason r = Some "No assignee during sprint" ->
     Assignee r = JStr "Unassigned") /\
    (Spillover_Reason r = Some "Underestimated effort" ->
     at_least_8 (Story_Points r) = true).
Proof.
  eexists. split; [vm_compute; reflexivity|].
  apply (@record_columns_agree_with_reason Iso.pandas (JStr "Sprint 7")
           Sample.sprint_start Sample.sprint_end Cases.nobody_issue).
  vm_compute. reflexivity.
Defined.

(** X14: when the loop over the issues of a sprint ends without raising,
    it has appended one record per issue, Done or not, in the order of
    the issues, and kept the records it had. *)
Theorem one_record_per_issue_in_order {P : Pandas}
    (sprint_name sprint_start sprint_end : json)
    (issues : list json) (before records : list record) :
  issue_records sprint_name sprint_start sprint_end issues before = Ok records ->
  exists rs,
    records = before ++ rs /\
    List.length rs = List.length issues /\
    Forall2 (fun i r => issue_record sprint_name sprint_start sprint_end i = Ok r /\
                        py_getitem i "key" = Ok (Issue_Key r))
            issues rs.
Proof.
  intros H. apply issue_records_each in H. destruct H as (rs & -> & Hall).
  exists rs. split; [reflexivity|]. split.
  - symmetry. eapply Forall2_length. exact Hall.
  - induction Hall as [|i r issues rs Hi _ IH]; constructor; [|exact IH].
    split; [exact Hi|]. unfold issue_record in Hi. do 10 split_bind Hi.
    injection Hi as <-. exact Hx7.
Qed.

Lemma one_record_per_issue_in_order_witness :
  exists rs,
    Sample.records = [] ++ rs /\
    List.length rs = 6 /\
    Forall2 (fun i r =>
               @issue_record Iso.pandas (JStr "Sprint 7") Sample.sprint_start
                 Sample.sprint_end i = Ok r /\
               py_getitem i "key" = Ok (Issue_Key r))
            [Sample.done_issue; Sample.added_issue; Sample.big_issue;
             Sample.carried_issue; Sample.plain_issue;
             Sample.issue "PAY-6" "To Do" Sample.before_start Sample.during_sprint
               JNull (Sample.user "Bo")]
            rs.
Proof.
  apply (@one_record_per_issue_in_order Iso.pandas (JStr "Sprint 7")
           Sample.sprint_start Sample.sprint_end
           [Sample.done_issue; Sample.added_issue; Sample.big_issue;
            Sample.carried_issue; Sample.plain_issue;
            Sample.issue "PAY-6" "To Do" Sample.before_start Sample.during_sprint
              JNull (Sample.user "Bo")]
           [] Sample.records).
  vm_compute. reflexivity.
Defined.

(** X15: the first issue on which building the record raises ends the
    loop over the issues with that exception; the records built before it
    are not returned and the issues after it are not looked at. *)
Theorem first_raising_issue_ends_the_loop {P : Pandas}
    (sprint_name sprint_start sprint_end : json)
    (good : list json) (bad : json) (rest : list json)
    (before : list record) (e : exn) :
  Forall (fun i => exists r, issue_record sprint_name sprint_start sprint_end i = Ok r) good ->
  issue_record sprint_name sprint_start sprint_end bad = Raise e ->
  issue_records sprint_name sprint_start sprint_end (good ++ bad :: rest) before
  = Raise e.
Proof.
  intros Hgood Hbad. revert before.
  induction Hgood as [|i good [r Hi] _ IH]; intros before; cbn.
  - now rewrite Hbad.
  - rewrite Hi. cbn. apply IH.
Qed.

Lemma first_raising_issue_ends_the_loop_witness :
  @issue_records Iso.pandas (JStr "Sprint 7") Sample.sprint_start Sample.sprint_end
    ([Sample.plain_issue; Sample.done_issue] ++ Sample.unassigned_todo :: [Sample.big_issue]) []
  = Raise AttributeError.
Proof.
  apply (@first_raising_issue_ends_the_loop Iso.pandas).
  - repeat constructor; eexists; vm_compute; reflexivity.
  - vm_compute. reflexivity.
Defined.

(** X16: when every closed sprint lacks a date (or the board has no
    closed sprint), [analyze_spillovers] asks for no issue and raises
    [KeyError]: the frame built from no record has no column to select. *)
Theorem no_dated_sprint_raises_KeyError {P : Pandas} {F : Frames}
    (fuel : nat) (srv : service) (log log1 : list request) (sprints : list json) :
  get_sprints fuel srv BOARD_ID log = Some (Ok sprints, log1) ->
  forallb skipped sprints = true ->
  analyze_spillovers fuel srv log = Some (Raise KeyError, log1).
Proof.
  intros Hs Hall. unfold analyze_spillovers, collect_records. rewrite Hs.
  now rewrite (all_skipped_no_records fuel srv sprints log1 [] Hall).
Qed.

Lemma no_dated_sprint_raises_KeyError_witness :
  @analyze_spillovers Iso.pandas Iso.frames 1 Cases.undated_board []
  = Some (Raise KeyError, [SprintsPage 1 0]).
Proof.
  apply (@no_dated_sprint_raises_KeyError Iso.pandas Iso.frames 1 Cases.undated_board
           [] [SprintsPage 1 0]
           [Sample.undated_sprint 5 "Sprint 5"; Sample.undated_sprint 6 "Sprint 6"]).
  - vm_compute. reflexivity.
  - vm_compute. reflexivity.
Defined.

Lemma asks_for_dated_sprint_more sprint sprints rq :
  asks_for_dated_sprint sprints rq -> asks_for_dated_sprint (sprint :: sprints) rq.
Proof.
  intros (sp & id & name & s & e & n & Hin & Hh & Hs & ->).
  exists sp, id, name, s, e, n. repeat split; auto. now right.
Qed.

(** X17: whatever the outcome of the loop over the sprints, every request
    it has made is for the issues of one of the sprints that has both
    dates; no issue of a sprint that is passed over is ever asked for. *)
Theorem issues_asked_for_dated_sprints_only {P : Pandas}
    (fuel : nat) (srv : service) (sprints : list json) :
  forall (log : list request) (records : list record)
         (res : result (list record)) (log' : list request),
    sprint_records fuel srv sprints log records = Some (res, log') ->
    exists reqs, log' = log ++ reqs /\ Forall (asks_for_dated_sprint sprints) reqs.
Proof.
  induction sprints as [|sprint rest IH]; intros log records res log' H; cbn in H.
  - injection H as _ <-. exists []. split; [now rewrite app_nil_r | constructor].
  - destruct (sprint_header sprint) as [[[[id name] s] e]|ex] eqn:Hh.
    2:{ injection H as _ <-. exists []. split; [now rewrite app_nil_r | constructor]. }
    destruct (skip_sprint s e) eqn:Hskip.
    { apply IH in H. destruct H as (reqs & -> & Hall). exists reqs.
      split; [reflexivity|]. eapply Forall_impl; [|exact Hall].
      intros rq. apply asks_for_dated_sprint_more. }
    destruct (get_issues_for_sprint fuel srv id log) as [[got log1]|] eqn:Hget;
      [|discriminate].
    unfold get_issues_for_sprint, get_issues_loop in Hget.
    apply fetch_loop_log in Hget. destruct Hget as (reqs1 & -> & Hall1).
    assert (Hmine : Forall (asks_for_dated_sprint (sprint :: rest)) reqs1).
    { eapply Forall_impl; [|exact Hall1]. intros rq [n ->].
      exists sprint, id, name, s, e, n. repeat split; auto. now left. }
    destruct got as [issues|ex].
    2:{ injection H as _ <-. now exists reqs1. }
    destruct (issue_records name s e issues records) as [records'|ex].
    2:{ injection H as _ <-. now exists reqs1. }
    apply IH in H. destruct H as (reqs & -> & Hall).
    exists (reqs1 ++ reqs). split; [now rewrite app_assoc|].
    apply Forall_app. split; [exact Hmine|].
    eapply Forall_impl; [|exact Hall]. intros rq. apply asks_for_dated_sprint_more.
Qed.

Lemma issues_asked_for_dated_sprints_only_witness :
  exists reqs,
    [SprintsPage 1 0; IssuesPage (JInt 6) 0] = [SprintsPage 1 0] ++ reqs /\
    Forall (asks_for_dated_sprint
              [Sample.undated_sprint 5 "Sprint 5"; Sample.sprint 6 "Sprint 6"]) reqs.
Proof.
  apply (@issues_asked_for_dated_sprints_only Iso.pandas 1 Cases.small_board
           [Sample.undated_sprint 5 "Sprint 5"; Sample.sprint 6 "Sprint 6"]
           [SprintsPage 1 0] []
           (match @sprint_records Iso.pandas 1 Cases.small_board
                    [Sample.undated_sprint 5 "Sprint 5"; Sample.sprint 6 "Sprint 6"]
                    [SprintsPage 1 0] [] with
            | Some (res, _) => res
            | None => Raise KeyError
            end)).
  vm_compute. reflexivity.
Defined.

(** X18: a run of [analyze_spillovers] that reaches its summary has read
    the sprints of the board, has built one record for each issue of the
    sprints that have both dates, in the order they were fetched, and its
    summary is that of these records. *)
Theorem summary_is_of_the_fetched_issues {P : Pandas} {F : Frames}
    (fuel : nat) (srv : service) (log log2 : list request) (rows : list summary_row) :
  analyze_spillovers fuel srv log = Some (Ok rows, log2) ->
  exists sprints log1 records,
    get_sprints fuel srv BOARD_ID log = Some (Ok sprints, log1) /\
    classify_items (fetched_items fuel srv sprints log1) [] = Ok records /\
    List.length records = List.length (fetched_items fuel srv sprints log1) /\
    summarize records = Ok rows.
Proof.
  unfold analyze_spillovers, collect_records. intros H.
  destruct (get_sprints fuel srv BOARD_ID log) as [[[sprints|ex] log1]|];
    try discriminate.
  destruct (sprint_records fuel srv sprints log1 []) as [[[records|ex] log3]|] eqn:Hr;
    try discriminate.
  injection H as Hs <-. exists sprints, log1, records.
  pose proof (sprint_records_items _ _ _ _ _ _ _ Hr) as Hc.
  split; [reflexivity|]. split; [exact Hc|]. split; [|exact Hs].
  now rewrite (classify_items_length _ _ _ Hc).
Qed.

Lemma summary_is_of_the_fetched_issues_witness :
  exists sprints log1 records,
    get_sprints 1 Cases.small_board BOARD_ID [] = Some (Ok sprints, log1) /\
    @classify_items Iso.pandas (fetched_items 1 Cases.small_board sprints log1) []
    = Ok records /\
    List.length records = List.length (fetched_items 1 Cases.small_board sprints log1) /\
    @summarize Iso.frames records = Ok Cases.small_rows.
Proof.
  apply (@summary_is_of_the_fetched_issues Iso.pandas Iso.frames 1 Cases.small_board
           [] [SprintsPage 1 0; IssuesPage (JInt 6) 0] Cases.small_rows).
  vm_compute. reflexivity.
Defined.

(** ** The rows of the summary, one by one *)

Section Rows.
Context {F : Frames}.

Lemma filter_filter {A : Type} (p q : A -> bool) (l : list A) :
  filter p (filter q l) = filter (fun x => andb (q x) (p x)) l.
Proof.
  induction l as [|x l IH]; cbn; [reflexivity|].
  destruct (q x); cbn; [destruct (p x)|]; now rewrite IH.
Qed.

Lemma filter_none {A : Type} (p : A -> bool) (l : list A) :
  (forall x, In x l -> p x = false) -> filter p l = [].
Proof.
  induction l as [|x l IH]; cbn; intros H; [reflexivity|].
  rewrite (H x) by now left. apply IH. intros y Hy. apply H. now right.
Qed.

Lemma filter_all {A : Type} (p : A -> bool) (l : list A) :
  (forall x, In x l -> p x = true) -> filter p l = l.
Proof.
  induction l as [|x l IH]; cbn; intros H; [reflexivity|].
  rewrite (H x) by now left. f_equal. apply IH. intros y Hy. apply H. now right.
Qed.

Lemma key_eqb_refl k : key_eqb k k = true.
Proof. now apply key_eqb_eq. Qed.

(** In sorted groups, the rows of a group are the members with its key. *)
Lemma bucket_is_filter bs :
  NoDup (keys bs) ->
  (forall b, In b bs -> forall x, In x (snd b) -> group_key x = Some (fst b)) ->
  forall b, In b bs -> filter (has_key (fst b)) (members bs) = snd b.
Proof.
  induction bs as [|b0 bs IH]; intros Hnd Hat b Hb; [contradiction|].
  apply NoDup_cons_iff in Hnd. destruct Hnd as [Hnot Hnd].
  unfold members in *. cbn. rewrite filter_app.
  assert (Hat' : forall b', In b' bs -> forall x, In x (snd b') -> group_key x = Some (fst b'))
    by (intros b' Hb' x Hx; apply (Hat b'); [now right | exact Hx]).
  destruct Hb as [<-|Hb].
  - rewrite filter_all.
    + rewrite filter_none; [now rewrite app_nil_r|].
      intros x Hx. apply in_concat in Hx. destruct Hx as (l & Hl & Hx).
      apply in_map_iff in Hl. destruct Hl as (b' & <- & Hb').
      unfold has_key. rewrite (Hat' b' Hb' x Hx).
      destruct (key_eqb (fst b') (fst b0)) eqn:He; [|reflexivity].
      apply key_eqb_eq in He. exfalso. apply Hnot. rewrite <- He. now apply in_map.
    + intros x Hx. unfold has_key. rewrite (Hat b0 (or_introl eq_refl) x Hx).
      apply key_eqb_refl.
  - rewrite filter_none.
    + cbn. now apply IH.
    + intros x Hx. unfold has_key. rewrite (Hat b0 (or_introl eq_refl) x Hx).
      destruct (key_eqb (fst b0) (fst b)) eqn:He; [|reflexivity].
      apply key_eqb_eq in He. exfalso. apply Hnot. rewrite He. now apply in_map.
Qed.

Lemma counted_in_spec a reason r :
  andb (has_reason r) (andb (has_group_key r)
       (andb (has_key (a, reason) r) (negb (is_na (Issue_Key r)))))
  = counted_in a reason r.
Proof.
  unfold has_reason, has_group_key, has_key, group_key, counted_in, key_eqb, py_eq_str.
  destruct (Assignee r), (Spillover_Reason r); cbn; try reflexivity.
  all: try now rewrite ?andb_false_r.
Qed.

(** The count of a group is the number of records of the frame with its
    assignee and reason that have an issue key. *)
Lemma bucket_count records b :
  In b (groupby (df_spilled records)) ->
  count_keys (snd b)
  = List.length (filter (counted_in (fst (fst b)) (snd (fst b))) records).
Proof.
  intros Hb.
  pose proof (groupby_grouped (df_spilled records)) as [Gs Gk Gm Ga].
  unfold count_keys.
  rewrite <- (bucket_is_filter _ (sorted_keys_NoDup _ Gs) Ga b Hb).
  rewrite filter_filter.
  rewrite (filter_length_Permutation _ _ _ Gm).
  unfold df_spilled. rewrite !filter_filter. f_equal.
  apply filter_ext. intros r. destruct (fst b) as [a reason]. cbn [fst snd].
  apply counted_in_spec.
Qed.

Lemma mapM_Forall2 {A B : Type} (f : A -> result B) l l' :
  mapM f l = Ok l' -> Forall2 (fun a b => f a = Ok b) l l'.
Proof.
  revert l'. induction l as [|a l IH]; intros l' H; cbn in H.
  - injection H as <-. constructor.
  - split_bind H. split_bind H. injection H as <-. constructor; auto.
Qed.

Lemma agg_rows column records bs rows :
  (forall b, In b bs -> In b (groupby (df_spilled records))) ->
  Forall2 (fun b row => agg column b = Ok row) bs rows ->
  map row_count rows = map (counted_row records) (keys bs).
Proof.
  intros Hin Hs. induction Hs as [|b row bs rows Hb _ IH]; [reflexivity|].
  cbn. rewrite IH by (intros b' Hb'; apply Hin; now right). f_equal.
  unfold agg in Hb. split_bind Hb. injection Hb as <-.
  unfold row_count, counted_row. cbn.
  now rewrite (bucket_count records b (Hin b (or_introl eq_refl))).
Qed.

(** The summary, row by row: the keys of the groups in order, each with
    its count. *)
Lemma summarize_rows records rows :
  groupable records = true ->
  summarize records = Ok rows ->
  map row_count rows
  = map (counted_row records) (keys (groupby (df_spilled records))).
Proof.
  intros Hg Hs. unfold summarize in Hs.
  destruct records as [|r0 records0] eqn:Hrec; [discriminate|].
  rewrite <- Hrec in *. clear Hrec r0 records0.
  unfold groupable in Hg. rewrite Hg in Hs.
  apply mapM_Forall2 in Hs.
  eapply agg_rows; [|exact Hs]. auto.
Qed.

Lemma groupable_nonempty_keys records k :
  In k (keys (groupby (df_spilled records))) ->
  exists r, In r records /\ Assignee r = JStr (fst k) /\
            Spillover_Reason r = Some (snd k).
Proof.
  intros Hk.
  pose proof (groupby_grouped (df_spilled records)) as [_ Gk _ _].
  apply Gk in Hk. destruct Hk as (r & Hr & Hkey).
  exists r. apply filter_In in Hr. destruct Hr as [Hr _]. split; [exact Hr|].
  unfold group_key in Hkey.
  destruct (Assignee r); try discriminate.
  destruct (Spillover_Reason r); try discriminate.
  now injection Hkey as <-.
Qed.

Lemma sorted_same_elements (l l' : list key) :
  StronglySorted key_lt l -> StronglySorted key_lt l' ->
  (forall k, In k l <-> In k l') -> l = l'.
Proof.
  intros Hs. revert l'. induction Hs as [|a l Hs IH Ha]; intros l' Hs' Hsame.
  - destruct l' as [|a' l']; [reflexivity|].
    exfalso. apply (Hsame a'). now left.
  - destruct Hs' as [|a' l' Hs' Ha'].
    + exfalso. apply (Hsame a). now left.
    + rewrite Forall_forall in Ha, Ha'.
      assert (a = a') as <-.
      { destruct (proj1 (Hsame a) (or_introl eq_refl)) as [->|Hin]; [reflexivity|].
        destruct (proj2 (Hsame a') (or_introl eq_refl)) as [->|Hin']; [reflexivity|].
        exfalso. apply (key_lt_irrefl a).
        apply key_lt_trans with (b := a'); [now apply Ha | now apply Ha']. }
      f_equal. apply IH; [exact Hs'|]. intros k. split; intros Hk.
      * destruct (proj1 (Hsame k) (or_intror Hk)) as [<-|Hin]; [|exact Hin].
        exfalso. apply (key_lt_irrefl a). now apply Ha.
      * destruct (proj2 (Hsame k) (or_intror Hk)) as [<-|Hin]; [|exact Hin].
        exfalso. apply (key_lt_irrefl a). now apply Ha'.
Qed.

End Rows.

Lemma groupable_Permutation records records' :
  Permutation records records' -> groupable records = true -> groupable records' = true.
Proof.
  unfold groupable, df_spilled. rewrite !forallb_forall. intros Hp H r Hr.
  apply H. apply filter_In in Hr. destruct Hr as [Hr Hreason].
  apply filter_In. split; [|exact Hreason].
  eapply Permutation_in; [symmetry; exact Hp | exact Hr].
Qed.

Lemma sorted_rows records :
  forall ks rows,
    map row_count rows = map (counted_row records) ks ->
    StronglySorted key_lt ks -> StronglySorted row_lt rows.
Proof.
  induction ks as [|k ks IH]; intros rows Hm Hs.
  - destruct rows; [constructor | discriminate].
  - destruct rows as [|row rows]; [discriminate|].
    cbn [map] in Hm. injection Hm as Ha Hr _ Hm.
    apply StronglySorted_inv in Hs. destruct Hs as [Hs Hk].
    constructor; [now apply IH|].
    rewrite Forall_forall in *. intros row' Hin'.
    assert (Hin : In (row_count row') (map (counted_row records) ks))
      by (rewrite <- Hm; now apply in_map).
    apply in_map_iff in Hin. destruct Hin as (k' & Hk' & Hin).
    specialize (Hk k' Hin).
    unfold row_count, counted_row in Hk'.
    injection Hk' as Ha' Hr' _.
    unfold row_lt. rewrite Ha, Hr, <- Ha', <- Hr'.
    now destruct k, k'.
Qed.

(** X19: every row of the summary stands for at least one spilled record
    with its assignee and reason, and its count is the number of records
    with that assignee and that reason that have an issue key. *)
Theorem each_row_counts_its_records {F : Frames}
    (records : list record) (rows : list summary_row) :
  groupable records = true ->
  summarize records = Ok rows ->
  Forall (fun row =>
            exists a,
              row_Assignee row = JStr a /\
              Spilled_Issues row
              = List.length (filter (counted_in a (row_Reason row)) records) /\
              exists r, In r records /\ Assignee r = JStr a /\
                        Spillover_Reason r = Some (row_Reason row))
         rows.
Proof.
  intros Hg Hs. pose proof (summarize_rows records rows Hg Hs) as Hm.
  apply Forall_forall. intros row Hin.
  assert (Hk : In (row_count row)
                  (map (counted_row records) (keys (groupby (df_spilled records)))))
    by (rewrite <- Hm; now apply in_map).
  apply in_map_iff in Hk. destruct Hk as (k & Hk & Hin').
  unfold row_count, counted_row in Hk. injection Hk as Ha Hr Hc.
  exists (fst k). rewrite <- Ha, <- Hr, <- Hc. split; [reflexivity|].
  split; [reflexivity|]. now apply groupable_nonempty_keys.
Qed.

Lemma each_row_counts_its_records_witness :
  Forall (fun row =>
            exists a,
              row_Assignee row = JStr a /\
              Spilled_Issues row
              = List.length (filter (counted_in a (row_Reason row)) Sample.records) /\
              exists r, In r Sample.records /\ Assignee r = JStr a /\
                        Spillover_Reason r = Some (row_Reason row))
         Sample.rows.
Proof.
  apply (@each_row_counts_its_records Iso.frames Sample.records Sample.rows).
  - vm_compute. reflexivity.
  - vm_compute. reflexivity.
Defined.

(** X20: the rows of the summary come sorted by assignee, then by reason,
    each strictly before the next: no two rows have the same assignee and
    the same reason. *)
Theorem summary_rows_are_sorted {F : Frames}
    (records : list record) (rows : list summary_row) :
  groupable records = true ->
  summarize records = Ok rows ->
  StronglySorted row_lt rows.
Proof.
  intros Hg Hs.
  apply (sorted_rows records (keys (groupby (df_spilled records)))).
  - now apply summarize_rows.
  - now destruct (groupby_grouped (df_spilled records)).
Qed.

Lemma summary_rows_are_sorted_witness : StronglySorted row_lt Sample.rows.
Proof.
  apply (@summary_rows_are_sorted Iso.frames Sample.records Sample.rows).
  - vm_compute. reflexivity.
  - vm_compute. reflexivity.
Defined.

(** X21: the assignees, reasons and counts of the summary do not depend
    on the order of the records: two frames with the same records in
    different orders give the same rows, up to the sums of story points. *)
Theorem summary_counts_ignore_order {F : Frames}
    (records records' : list record) (rows rows' : list summary_row) :
  Permutation records records' ->
  groupable records = true ->
  summarize records = Ok rows ->
  summarize records' = Ok rows' ->
  map row_count rows = map row_count rows'.
Proof.
  intros Hp Hg Hs Hs'.
  rewrite (summarize_rows records rows Hg Hs).
  rewrite (summarize_rows records' rows' (groupable_Permutation _ _ Hp Hg) Hs').
  pose proof (groupby_grouped (df_spilled records)) as [Gs Gk _ _].
  pose proof (groupby_grouped (df_spilled records')) as [Gs' Gk' _ _].
  assert (Hin : forall r, In r (df_spilled records) <-> In r (df_spilled records')).
  { intros r. unfold df_spilled. rewrite !filter_In. split; intros [Hr Hreason];
      (split; [|exact Hreason]).
    - eapply Permutation_in; [exact Hp | exact Hr].
    - eapply Permutation_in; [symmetry; exact Hp | exact Hr]. }
  rewrite (sorted_same_elements _ _ Gs Gs').
  - apply map_ext. intros k. unfold counted_row.
    now rewrite (filter_length_Permutation _ _ _ Hp).
  - intros k. rewrite Gk, Gk'. split; intros (r & Hr & Hk); exists r;
      (split; [now apply Hin | exact Hk]).
Qed.

Lemma summary_counts_ignore_order_witness :
  map row_count Cases.rows_forward = map row_count Cases.rows_backward.
Proof.
  apply (@summary_counts_ignore_order Cases.first_value
           Sample.records (rev Sample.records)).
  - apply Permutation_rev.
  - vm_compute. reflexivity.
  - vm_compute. reflexivity.
  - vm_compute. reflexivity.
Defined.

(** ** When the loop of [get_sprints] cannot end *)

Section Hang.
Variable srv : service.

Lemma fetch_loop_less_fuel body url fuel fuel' log acc start_at :
  fuel' <= fuel ->
  fetch_loop body url fuel srv log acc start_at = None ->
  fetch_loop body url fuel' srv log acc start_at = None.
Proof.
  intros Hle Hnone.
  destruct (fetch_loop body url fuel' srv log acc start_at) as [out|] eqn:H;
    [|reflexivity].
  rewrite (fetch_loop_more_fuel body url srv fuel' log acc start_at out H fuel Hle)
    in Hnone.
  discriminate.
Qed.

Lemma sprints_loop_stuck board_id offset d last :
  (forall log, srv log (SprintsPage board_id offset) = Ok (JObj d)) ->
  page_items "values" (JObj d) = Ok [] ->
  dict_lookup d "isLast" = Some last ->
  truthy last = false ->
  forall fuel log acc,
    get_sprints_loop fuel srv board_id log acc offset = None.
Proof.
  intros Hsrv Hi Hl Ht. induction fuel as [|fuel IH]; intros log acc; [reflexivity|].
  unfold get_sprints_loop in *. rewrite fetch_loop_turn, Hsrv. cbn [bind].
  rewrite (sprints_page_more d [] acc offset last Hi Hl Ht).
  cbn [List.length]. rewrite Nat.add_0_r. apply IH.
Qed.

End Hang.

(** X22: if, after some pages, the service answers the next request with
    an empty page that is not marked as last, and does so each time it is
    asked, [get_sprints] never returns, however many turns it is given. *)
Theorem get_sprints_hangs_on_empty_unmarked_page (srv : service) (board_id : Z)
    (log : list request) (pages : list (list json * bool))
    (d : list (string * json)) (last : json) :
  Forall unmarked pages ->
  serves srv (SprintsPage board_id) "values" log 0 pages ->
  (forall log', srv log' (SprintsPage board_id (List.length (all_records pages)))
                = Ok (JObj d)) ->
  page_items "values" (JObj d) = Ok [] ->
  dict_lookup d "isLast" = Some last ->
  truthy last = false ->
  forall fuel, get_sprints fuel srv board_id log = None.
Proof.
  intros Hu Hs Hsrv Hi Hl Ht fuel.
  apply fetch_loop_less_fuel with (fuel := List.length pages + fuel); [lia|].
  change (get_sprints_loop (List.length pages + fuel) srv board_id log [] 0 = None).
  rewrite (sprints_loop_prefix srv board_id pages _ _ _ _ Hu Hs). cbn [Nat.add].
  now apply (sprints_loop_stuck srv board_id _ d last).
Qed.

Lemma get_sprints_hangs_on_empty_unmarked_page_witness :
  get_sprints 1000 Sample.empty_unmarked 1 [] = None.
Proof.
  refine (get_sprints_hangs_on_empty_unmarked_page Sample.empty_unmarked 1 [] []
            [("maxResults", JInt 100); ("startAt", JInt 0);
             ("values", JArr []); ("isLast", JBool false)] (JBool false)
            _ _ _ _ _ _ 1000).
  - constructor.
  - exact I.
  - intros log'. reflexivity.
  - reflexivity.
  - reflexivity.
  - reflexivity.
Defined.

(** X23: an issue whose ["assignee"] field holds anything but an object,
    [null] for one, makes the body of the loop over the issues raise
    [AttributeError], whatever its other fields and the dates of the
    sprint are. *)
Theorem assignee_not_an_object_raises {P : Pandas}
    (sprint_name sprint_start sprint_end : json)
    (d f : list (string * json)) (a : json) :
  dict_lookup d "fields" = Some (JObj f) ->
  dict_lookup f "assignee" = Some a ->
  (forall o, a <> JObj o) ->
  issue_record sprint_name sprint_start sprint_end (JObj d) = Raise AttributeError
  /\
  exists e, get_spillover_reason (JObj d) sprint_start sprint_end = Raise e.
Proof.
  intros Hf Ha Hno. split.
  - unfold issue_record. cbn. rewrite Hf. cbn. rewrite Ha. cbn.
    destruct a; try reflexivity. now destruct (Hno d0).
  - destruct (get_spillover_reason (JObj d) sprint_start sprint_end) as [r|e] eqn:H;
      [|now exists e].
    exfalso. unfold get_spillover_reason in H. split_bind H.
    apply read_fields_object in Hx.
    destruct Hx as (d' & f' & [= <-] & Hf' & _ & _ & _ & Hget).
    rewrite Hf in Hf'. injection Hf' as <-. rewrite Ha in Hget.
    apply py_get_ok in Hget. destruct Hget as (o & -> & _). now apply (Hno o).
Qed.

Lemma assignee_not_an_object_raises_witness :
  @issue_record Iso.pandas (JStr "Sprint 7") Sample.sprint_start Sample.sprint_end
    Sample.unassigned_done = Raise AttributeError
  /\
  exists e, @get_spillover_reason Iso.pandas Sample.unassigned_done
              Sample.sprint_start Sample.sprint_end = Raise e.
Proof.
  unfold Sample.unassigned_done, Sample.issue.
  eapply (@assignee_not_an_object_raises Iso.pandas).
  - reflexivity.
  - reflexivity.
  - intros o. discriminate.
Defined.
